(** * report_generator.py: notebook-to-PDF rendering, embedded in Rocq

    The development follows [src/report_generator.py]:
    - [NotebookReportPDF] (an [FPDF] subclass) and its [add_*] methods,
    - [process_notebook], which executes a notebook and renders its cells.

    The FPDF object is modelled by the ordered log of the FPDF calls made on
    it (the document is append-only) together with its current text colour;
    the temporary directory used by [add_image] is a finite map from file
    names to file contents.  Python exceptions are values of an error monad
    that threads the state, so that effects performed before a [raise]
    persist, exactly as in Python. *)

From stdpp Require Import gmap strings list fin_maps.

From Stdlib Require Import QArith Qminmax Lqa Strings.Byte Ascii DecimalString.

Local Close Scope Q_scope.

Local Open Scope string_scope.

Local Open Scope list_scope.

(** ** Python strings *)

(** The character [\n]. *)
Definition nl : string := String "010"%char EmptyString.

(** [sep.join(l)] for a list of strings. *)
Fixpoint str_join (sep : string) (l : list string) : string :=
  match l with
  | [] => ""
  | [s] => s
  | s :: rest => s +:+ sep +:+ str_join sep rest
  end.

(** Iterating a [str] yields its characters, as one-character strings. *)
Fixpoint str_iter (s : string) : list string :=
  match s with
  | EmptyString => []
  | String c s' => String c EmptyString :: str_iter s'
  end.

(** [str(n)] for a non-negative integer. *)
Definition str_of_nat (n : nat) : string :=
  NilEmpty.string_of_uint (Nat.to_uint n).

(** [s.startswith(p)] *)
Definition startswith (p s : string) : bool := String.prefix p s.

(** ** Notebook data, as read by [nbformat]

    Cells and outputs are dictionaries that the code reads with
    [.get(key, default)]: every field is optional.  A present field has the
    type the notebook format (version 4) gives it; the fields the format
    calls "multiline strings" are either one string or a list of strings. *)

Inductive text :=
| TStr (s : string)
| TList (fragments : list string).

(** The value of [output['data']], restricted to the two keys the code
    looks up. *)
Record mime_bundle := {
  text_plain : option text;      (* data['text/plain'] *)
  image_png : option string;     (* data['image/png'] *)
}.

Record output := {
  output_type : option string;
  o_name : option string;               (* 'name' of a stream *)
  o_text : option text;                 (* 'text' of a stream *)
  o_data : option mime_bundle;          (* 'data' *)
  ename : option string;
  evalue : option string;
  traceback : option (list string);
}.

Record cell_metadata := {
  format : option text;                 (* metadata['format'] *)
}.

Record cell := {
  cell_type : option string;
  source : option text;
  outputs : option (list output);
  metadata : option cell_metadata;
}.

Record notebook := {
  cells : option (list cell);
}.

(** [sep.join(x)] where [x] is a multiline string: a list is joined, a
    string is iterated character by character. *)
Definition py_join (sep : string) (x : text) : string :=
  match x with
  | TStr s => str_join sep (str_iter s)
  | TList l => str_join sep l
  end.

(** [sep.join(x) if isinstance(x, list) else x] *)
Definition join_if_list (sep : string) (x : text) : string :=
  match x with
  | TList l => str_join sep l
  | TStr s => s
  end.

(** Truth value of a string: [if s:]. *)
Definition str_truthy (s : string) : bool :=
  match s with EmptyString => false | _ => true end.

(** [enumerate(l)], written with its running index. *)
Fixpoint enumerate_from {A} (i : nat) (l : list A) : list (nat * A) :=
  match l with
  | [] => []
  | x :: rest => (i, x) :: enumerate_from (S i) rest
  end.

Definition enumerate {A} (l : list A) : list (nat * A) := enumerate_from 0 l.

(** ** The FPDF object and the world around it *)

(** The calls made on the FPDF object.  [Image] records the content of the
    file that FPDF loads when [self.image(name, x=, w=)] is called. *)
Inductive fpdf_call :=
| SetAutoPageBreak (auto : bool) (margin : Z)
| AddPage
| SetFont (family style : string) (size : Z)
| SetFillColor (r g b : Z)
| SetTextColor (r g b : Z)
| Cell (w h : Z) (txt : string) (ln : bool) (align : string) (fill : bool)
| MultiCell (w h : Z) (txt : string) (fill : bool)
| Ln (h : Z)
| Image (data : list byte) (x w : Q).

Definition rgb : Type := Z * Z * Z.

Definition black : rgb := (0, 0, 0)%Z.

Definition red : rgb := (255, 0, 0)%Z.

Record world := {
  calls : list fpdf_call;               (* the document, oldest call first *)
  text_color : rgb;                     (* FPDF's current text colour *)
  tmpdir : gmap string (list byte);     (* files of the temporary directory *)
  tmp_seq : nat;                        (* names the next temporary file *)
  stdout : list string;                 (* lines printed so far *)
}.

Definition set_calls (cs : list fpdf_call) (st : world) : world :=
  {| calls := cs; text_color := text_color st; tmpdir := tmpdir st;
     tmp_seq := tmp_seq st; stdout := stdout st |}.

Definition set_color (c : rgb) (st : world) : world :=
  {| calls := calls st; text_color := c; tmpdir := tmpdir st;
     tmp_seq := tmp_seq st; stdout := stdout st |}.

Definition set_tmpdir (d : gmap string (list byte)) (st : world) : world :=
  {| calls := calls st; text_color := text_color st; tmpdir := d;
     tmp_seq := tmp_seq st; stdout := stdout st |}.

Definition set_tmp_seq (n : nat) (st : world) : world :=
  {| calls := calls st; text_color := text_color st; tmpdir := tmpdir st;
     tmp_seq := n; stdout := stdout st |}.

Definition set_stdout (out : list string) (st : world) : world :=
  {| calls := calls st; text_color := text_color st; tmpdir := tmpdir st;
     tmp_seq := tmp_seq st; stdout := out |}.

(** ** Exceptions and state *)

(** The outcome of a Python expression: a value, or an exception [e], kept
    as [str(e)] (the only thing the code does with a caught exception). *)
Inductive result (A : Type) :=
| Ok (a : A)
| Raise (msg : string).

Arguments Ok {A} a.

Arguments Raise {A} msg.

Definition M (A : Type) : Type := world → result A * world.

Definition ret {A} (a : A) : M A := λ st, (Ok a, st).

Definition bind {A B} (m : M A) (k : A → M B) : M B :=
  λ st, match m st with
        | (Ok a, st') => k a st'
        | (Raise e, st') => (Raise e, st')
        end.

Definition raise {A} (msg : string) : M A := λ st, (Raise msg, st).

(** [try: body  except Exception as e: handler(str(e))] *)
Definition try_except {A} (body : M A) (handler : string → M A) : M A :=
  λ st, match body st with
        | (Ok a, st') => (Ok a, st')
        | (Raise e, st') => handler e st'
        end.

Definition lift {A} (r : result A) : M A := λ st, (r, st).

Declare Scope py_scope.

Delimit Scope py_scope with py.

Notation "x <- m ;; k" := (bind m (λ x, k))
  (at level 100, m at next level, right associativity) : py_scope.

Notation "m ;;; k" := (bind m (λ _, k))
  (at level 100, right associativity) : py_scope.

Local Open Scope py_scope.

(** [for x in l: body(x)] *)
Fixpoint for_each {A} (body : A → M unit) (l : list A) : M unit :=
  match l with
  | [] => ret tt
  | x :: rest => body x ;;; for_each body rest
  end.

(** The final state of a computation. *)
Definition exec {A} (m : M A) (st : world) : world := snd (m st).

(** [print(line)] *)
Definition print (line : string) : M unit :=
  λ st, (Ok tt, set_stdout (stdout st ++ [line]) st).

(** ** External collaborators

    The libraries the program calls are not part of it; the development is
    parametric in what they compute. *)

(** What [ep.preprocess(nb, resources)] did: [nb_after] is the content of
    the notebook object that was passed in once the call is over (the call
    receives a reference and may write into it), [returned] is the notebook
    it returned, or the exception it raised. *)
Record exec_outcome := {
  nb_after : notebook;
  returned : result notebook;
}.

Record Externals := {
  (* base64.b64decode(s) *)
  b64decode : string → result (list byte);
  (* Image.open(filename), from the file's content: (width, height) *)
  Image_open : string → list byte → result (Z * Z);
  (* FPDF's own loading of the file in self.image(filename, ...) *)
  fpdf_load_image : string → list byte → result unit;
  (* self.w and self.l_margin of a fresh FPDF object *)
  fpdf_w : Q;
  fpdf_l_margin : Q;
  (* datetime.now().strftime('%Y-%m-%d %H:%M') *)
  now : string;
  (* ExecutePreprocessor(timeout=600, kernel_name='python3').preprocess *)
  ep_preprocess : notebook → exec_outcome;
}.

(** The name of the [n]-th temporary file.  Real names carry a random
    infix; the sequence number of the world stands for it. *)
Definition tmp_name (n : nat) (suffix : string) : string :=
  "/tmp/tmp" +:+ str_of_nat n +:+ suffix.

(** [tempfile.NamedTemporaryFile(delete=False, suffix=...)]: a new, empty
    file that stays when it is closed. *)
Definition NamedTemporaryFile (suffix : string) : M string :=
  λ st, let name := tmp_name (tmp_seq st) suffix in
        (Ok name,
         set_tmp_seq (S (tmp_seq st))
           (set_tmpdir (<[name := []]> (tmpdir st)) st)).

(** [temp_file.write(data)], flushed when the [with] block closes the file. *)
Definition file_write (name : string) (data : list byte) : M unit :=
  λ st, (Ok tt, set_tmpdir (<[name := data]> (tmpdir st)) st).

Definition no_such_file {A} (name : string) : M A :=
  raise ("[Errno 2] No such file or directory: '" +:+ name +:+ "'").

(** [os.unlink(name)] *)
Definition os_unlink (name : string) : M unit :=
  λ st, match tmpdir st !! name with
        | Some _ => (Ok tt, set_tmpdir (delete name (tmpdir st)) st)
        | None => no_such_file name st
        end.

(** ZeroDivisionError of [a / b]; the message tells a float operand.  In
    [add_image] the numerator is a float exactly when [min] returned the
    page width. *)
Definition zero_division {A} (float_operand : bool) : M A :=
  raise (if float_operand then "float division by zero"
         else "division by zero").

Section Program.

Variable E : Externals.

(** *** FPDF primitives *)

Definition emit (c : fpdf_call) : M unit :=
  λ st, (Ok tt, set_calls (calls st ++ [c]) st).

Definition set_font (family style : string) (size : Z) : M unit :=
  emit (SetFont family style size).

Definition set_fill_color (r g b : Z) : M unit :=
  emit (SetFillColor r g b).

Definition set_text_color (r g b : Z) : M unit :=
  λ st, (Ok tt, set_color (r, g, b) (set_calls (calls st ++ [SetTextColor r g b]) st)).

Definition fpdf_cell (w h : Z) (txt : string) (ln : bool) (align : string)
    (fill : bool) : M unit :=
  emit (Cell w h txt ln align fill).

Definition multi_cell (w h : Z) (txt : string) (fill : bool) : M unit :=
  emit (MultiCell w h txt fill).

Definition ln (h : Z) : M unit := emit (Ln h).

(** [Image.open(filename)]: the file is read from the temporary directory. *)
Definition PIL_Image_open (filename : string) : M (Z * Z) :=
  λ st, match tmpdir st !! filename with
        | Some content => (Image_open E filename content, st)
        | None => no_such_file filename st
        end.

(** [self.image(name, x=x, w=w)] *)
Definition fpdf_image (name : string) (x w : Q) : M unit :=
  λ st, match tmpdir st !! name with
        | Some content =>
            match fpdf_load_image E name content with
            | Ok _ => emit (Image content x w) st
            | Raise e => (Raise e, st)
            end
        | None => no_such_file name st
        end.

(** *** NotebookReportPDF *)

(** [__init__]: a new FPDF object (no call yet, black text) and the header. *)
Definition NotebookReportPDF (student_name assignment_name : string) : M unit :=
  (λ st, (Ok tt, set_color black (set_calls [] st))) ;;;
  emit (SetAutoPageBreak true 15) ;;;
  emit AddPage ;;;
  set_font "Arial" "B" 16 ;;;
  fpdf_cell 0 10 "Jupyter Notebook Assignment Report" true "C" false ;;;
  set_font "Arial" "" 12 ;;;
  fpdf_cell 0 10 ("Student: " +:+ student_name) true "" false ;;;
  fpdf_cell 0 10 ("Assignment: " +:+ assignment_name) true "" false ;;;
  fpdf_cell 0 10 ("Date: " +:+ now E) true "" false ;;;
  ln 10.

Definition cell_marker_label (cell_type : string) (cell_number : nat) : string :=
  "Cell " +:+ str_of_nat cell_number +:+ " (" +:+ cell_type +:+ ")".

Definition add_cell_marker (cell_type : string) (cell_number : nat) : M unit :=
  set_font "Arial" "B" 12 ;;;
  set_fill_color 220 220 220 ;;;
  fpdf_cell 0 10 (cell_marker_label cell_type cell_number) true "" true ;;;
  ln 5.

Definition add_code (code : string) : M unit :=
  set_font "Courier" "" 10 ;;;
  set_fill_color 240 240 240 ;;;
  multi_cell 0 5 code true ;;;
  ln 5.

Definition add_markdown (text : string) : M unit :=
  set_font "Arial" "B" 12 ;;;
  set_fill_color 245 245 250 ;;;
  multi_cell 0 5 text true ;;;
  ln 5.

Definition add_raw (text format_type : string) : M unit :=
  set_font "Arial" "B" 10 ;;;
  set_fill_color 255 245 230 ;;;
  (if str_truthy format_type then
     set_font "Arial" "I" 10 ;;;
     fpdf_cell 0 5 ("Format: " +:+ format_type) true "" false ;;;
     set_font "Courier" "" 10
   else ret tt) ;;;
  multi_cell 0 5 text true ;;;
  ln 5.

Definition add_output (output_text : string) : M unit :=
  set_font "Courier" "" 10 ;;;
  multi_cell 0 5 output_text false ;;;
  ln 5.

(** Lines 75-77: the usable page width, and the size of the image fitted
    to it. *)
Definition page_width : Q := (fpdf_w E - 2 * fpdf_l_margin E)%Q.

Definition fit_width (pil_width : Z) : Q :=
  Qmin page_width (inject_Z pil_width).

Definition fit_height (pil_width pil_height : Z) : M Q :=
  if (pil_width =? 0)%Z
  then zero_division (Qle_bool page_width 0)
  else ret ((inject_Z pil_height * fit_width pil_width) / inject_Z pil_width)%Q.

(** Line 80 *)
Definition center_x (img_width : Q) : Q :=
  (fpdf_l_margin E + (page_width - img_width) / 2)%Q.

(** The [try] block of [add_image]. *)
Definition add_image_try (img_data : string) : M unit :=
  temp_filename <- NamedTemporaryFile ".png" ;;
  image_data <- lift (b64decode E img_data) ;;
  file_write temp_filename image_data ;;;
  pil_img <- PIL_Image_open temp_filename ;;
  let img_width := fit_width (fst pil_img) in
  img_height <- fit_height (fst pil_img) (snd pil_img) ;;
  let x := center_x img_width in
  fpdf_image temp_filename x img_width ;;;
  ln 5 ;;;
  os_unlink temp_filename.

(** The [except Exception as e] block of [add_image]. *)
Definition add_image_except (e : string) : M unit :=
  set_text_color 255 0 0 ;;;
  multi_cell 0 5 ("Error displaying image: " +:+ e) false ;;;
  set_text_color 0 0 0 ;;;
  ln 5.

Definition add_image (img_data : string) : M unit :=
  try_except (add_image_try img_data) add_image_except.

(** *** process_notebook *)

(** Lines 107-125: execution, and the fallback when it raises.  The
    variable [nb] keeps naming the object that was handed to the executor,
    so after an exception it holds [nb_after]. *)
Definition execute_notebook (nb : notebook) : M notebook :=
  let outcome := ep_preprocess E nb in
  try_except
    (executed_nb <- lift (returned outcome) ;;
     match cells executed_nb with
     | Some cs =>
         print ("Successfully executed notebook with "
                +:+ str_of_nat (length cs) +:+ " cells") ;;;
         ret executed_nb
     | None => raise "cells"          (* AttributeError: executed_nb.cells *)
     end)
    (λ e,
     print ("Error executing notebook: " +:+ e) ;;;
     print "Continuing with non-executed notebook for PDF generation" ;;;
     ret (nb_after outcome)).

(** Lines 143-161: one output of a code cell. *)
Definition render_output (output : output) : M unit :=
  let output_type := default "" (output_type output) in
  if (output_type =? "stream")%string then
    add_output (default "output" (o_name output) +:+ ": "
                +:+ py_join "" (default (TList []) (o_text output)))
  else if (output_type =? "display_data")%string
          || (output_type =? "execute_result")%string then
    let data := default {| text_plain := None; image_png := None |}
                        (o_data output) in
    (match text_plain data with
     | Some tp => add_output (join_if_list "" tp)
     | None => ret tt
     end) ;;;
    (match image_png data with
     | Some img => add_image img
     | None => ret tt
     end)
  else if (output_type =? "error")%string then
    let error_name := default "Error" (ename output) in
    let error_value := default "" (evalue output) in
    let traceback := str_join nl (default [] (traceback output)) in
    set_text_color 255 0 0 ;;;
    add_output (error_name +:+ ": " +:+ error_value +:+ nl +:+ traceback) ;;;
    set_text_color 0 0 0
  else ret tt.

(** Lines 131-174: one iteration of the loop over the cells. *)
Definition render_cell (ic : nat * cell) : M unit :=
  let '(i, cell) := ic in
  let cell_type := default "unknown" (cell_type cell) in
  let cell_number := i + 1 in
  add_cell_marker cell_type cell_number ;;;
  if (cell_type =? "code")%string then
    let source := py_join "" (default (TList []) (source cell)) in
    add_code source ;;;
    let outputs := default [] (outputs cell) in
    for_each render_output outputs
  else if (cell_type =? "markdown")%string then
    let markdown_text := py_join "" (default (TList []) (source cell)) in
    add_markdown markdown_text
  else if (cell_type =? "raw")%string then
    let raw_text := py_join "" (default (TList []) (source cell)) in
    let metadata := default {| format := None |} (metadata cell) in
    let format_type := default (TStr "") (format metadata) in
    let format_type := join_if_list ", " format_type in
    add_raw raw_text format_type
  else ret tt.

(** Lines 127-176: the document made from a notebook. *)
Definition render_notebook (nb : notebook)
    (student_name assignment_name : string) : M unit :=
  NotebookReportPDF student_name assignment_name ;;;
  for_each render_cell (enumerate (default [] (cells nb))).

(** [process_notebook], from the parsed notebook on (line 107). *)
Definition process_notebook (nb : notebook)
    (student_name assignment_name : string) : M unit :=
  nb <- execute_notebook nb ;;
  render_notebook nb student_name assignment_name.

End Program.

(** ** Reference collaborators

    Executable stand-ins for the external libraries, used to run the program
    on concrete notebooks. *)

Module Reference.

(** *** base64.b64decode (binascii.a2b_base64, not strict) *)

Definition b64_value (c : ascii) : option N :=
  let n := N_of_ascii c in
  if (65 <=? n)%N && (n <=? 90)%N then Some (n - 65)%N
  else if (97 <=? n)%N && (n <=? 122)%N then Some (n - 71)%N
  else if (48 <=? n)%N && (n <=? 57)%N then Some (n + 4)%N
  else if (n =? 43)%N then Some 62%N
  else if (n =? 47)%N then Some 63%N
  else None.

Definition byte_of_N (n : N) : byte :=
  default x00 (Byte.of_N (n mod 256)%N).

(** The decoding loop: [quad_pos] is the position in the current group of
    four characters, [leftchar] the bits not yet written, [pads] the number
    of padding characters just seen, [out] the bytes written so far. *)
Fixpoint a2b_base64 (s : string) (quad_pos : nat) (leftchar : N) (pads : nat)
    (out : list byte) : result (list byte) :=
  match s with
  | EmptyString =>
      match quad_pos with
      | 0 => Ok out
      | 1 => Raise ("Invalid base64-encoded string: number of data characters ("
                    +:+ str_of_nat (length out / 3 * 4 + 1)
                    +:+ ") cannot be 1 more than a multiple of 4")
      | _ => Raise "Incorrect padding"
      end
  | String c rest =>
      if Ascii.eqb c "="%char then
        if (2 <=? quad_pos)%nat && (4 <=? quad_pos + S pads)%nat then Ok out
        else a2b_base64 rest quad_pos leftchar
               (if (2 <=? quad_pos)%nat then S pads else pads) out
      else
        match b64_value c with
        | None => a2b_base64 rest quad_pos leftchar pads out
        | Some v =>
            match quad_pos with
            | 0 => a2b_base64 rest 1 v 0 out
            | 1 => a2b_base64 rest 2 (N.land v 15) 0
                     (out ++ [byte_of_N (N.lor (N.shiftl leftchar 2) (N.shiftr v 4))])
            | 2 => a2b_base64 rest 3 (N.land v 3) 0
                     (out ++ [byte_of_N (N.lor (N.shiftl leftchar 4) (N.shiftr v 2))])
            | _ => a2b_base64 rest 0 0 0
                     (out ++ [byte_of_N (N.lor (N.shiftl leftchar 6) v)])
            end
        end
  end.

Fixpoint is_ascii (s : string) : bool :=
  match s with
  | EmptyString => true
  | String c rest => (N_of_ascii c <? 128)%N && is_ascii rest
  end.

Definition b64decode_ref (s : string) : result (list byte) :=
  if is_ascii s then a2b_base64 s 0 0 0 []
  else Raise "string argument should contain only ASCII characters".

(** *** Reading the size of a PNG from its header *)

Definition png_signature : list byte :=
  [x89; x50; x4e; x47; x0d; x0a; x1a; x0a].

Fixpoint bytes_eqb (a b : list byte) : bool :=
  match a, b with
  | [], [] => true
  | x :: a', y :: b' => Byte.eqb x y && bytes_eqb a' b'
  | _, _ => false
  end.

Definition be32 (bs : list byte) : Z :=
  fold_left (λ acc b, (acc * 256 + Z.of_N (Byte.to_N b))%Z) bs 0%Z.

(** The signature, then the IHDR chunk: length, "IHDR", width, height. *)
Definition png_size (content : list byte) : option (Z * Z) :=
  if bytes_eqb (take 8 content) png_signature
     && bytes_eqb (take 4 (drop 12 content)) [x49; x48; x44; x52]
     && (length (take 8 (drop 16 content)) =? 8)%nat
  then Some (be32 (take 4 (drop 16 content)), be32 (take 4 (drop 20 content)))
  else None.

Definition Image_open_ref (filename : string) (content : list byte)
    : result (Z * Z) :=
  match png_size content with
  | Some size => Ok size
  | None => Raise ("cannot identify image file '" +:+ filename +:+ "'")
  end.

(** FPDF parses the file again and refuses what it cannot embed, such as
    an interlaced image (byte 28, the last of IHDR). *)
Definition fpdf_load_image_ref (filename : string) (content : list byte)
    : result unit :=
  match png_size content with
  | Some _ =>
      if bytes_eqb (take 1 (drop 28 content)) [x00] then Ok tt
      else Raise ("FPDF error: Interlacing not supported: " +:+ filename)
  | None => Raise ("FPDF error: Not a PNG file: " +:+ filename)
  end.

(** *** Executing a notebook in place

    The executor runs the code cells in order and writes the outputs of
    each into the cell it was given; when a cell fails it raises, and the
    cells run so far keep their outputs.  [kernel source] gives the outputs
    of a cell and the error it ends with, if any. *)

Definition set_outputs (outs : list output) (c : cell) : cell :=
  {| cell_type := cell_type c; source := source c;
     outputs := Some outs; metadata := metadata c |}.

Fixpoint run_cells (kernel : string → list output * option string)
    (cs : list cell) : list cell * option string :=
  match cs with
  | [] => ([], None)
  | c :: rest =>
      if (default "" (cell_type c) =? "code")%string then
        let '(outs, err) := kernel (py_join "" (default (TList []) (source c))) in
        match err with
        | Some e => (set_outputs outs c :: rest, Some e)
        | None =>
            let '(rest', err') := run_cells kernel rest in
            (set_outputs outs c :: rest', err')
        end
      else
        let '(rest', err') := run_cells kernel rest in
        (c :: rest', err')
  end.

Definition preprocess_in_place (kernel : string → list output * option string)
    (nb : notebook) : exec_outcome :=
  match cells nb with
  | None => {| nb_after := nb; returned := Raise "cells" |}
  | Some cs =>
      let '(cs', err) := run_cells kernel cs in
      let nb' := {| cells := Some cs' |} in
      {| nb_after := nb';
         returned := match err with Some e => Raise e | None => Ok nb' end |}
  end.

Definition stream_output (name text : string) : output :=
  {| output_type := Some "stream"; o_name := Some name;
     o_text := Some (TStr text); o_data := None;
     ename := None; evalue := None; traceback := None |}.

Definition error_output (en ev : string) (tb : list string) : output :=
  {| output_type := Some "error"; o_name := None; o_text := None;
     o_data := None; ename := Some en; evalue := Some ev;
     traceback := Some tb |}.

(** A kernel that knows two programs. *)
Definition toy_kernel (src : string) : list output * option string :=
  if (src =? "print(1)")%string then
    ([stream_output "stdout" ("1" +:+ nl)], None)
  else if (src =? "1/0")%string then
    ([error_output "ZeroDivisionError" "division by zero" []],
     Some "ZeroDivisionError: division by zero")
  else ([], None).

(** FPDF's default page, A4 portrait in millimetres:
    w = 595.28 / k and l_margin = 28.35 / k with k = 72 / 25.4. *)
Definition externals : Externals :=
  {| b64decode := b64decode_ref;
     Image_open := Image_open_ref;
     fpdf_load_image := fpdf_load_image_ref;
     fpdf_w := 945007 # 4500;
     fpdf_l_margin := 8001 # 800;
     now := "2024-01-01 12:00";
     ep_preprocess := preprocess_in_place toy_kernel |}.

Definition empty_world : world :=
  {| calls := []; text_color := black; tmpdir := ∅; tmp_seq := 0;
     stdout := [] |}.

End Reference.

(** ** What [add_image] does, in closed form *)

(** The two ways [add_image] ends: the image was placed, or an exception
    was caught; [left_behind] is then the content of the temporary file. *)
Inductive image_outcome :=
| Placed (data : list byte) (x w : Q)
| Failed (e : string) (left_behind : list byte).

Definition add_image_outcome (E : Externals) (img_data : string) (n : nat)
    : image_outcome :=
  let name := tmp_name n ".png" in
  match b64decode E img_data with
  | Raise e => Failed e []
  | Ok data =>
      match Image_open E name data with
      | Raise e => Failed e data
      | Ok (W, H) =>
          if (W =? 0)%Z then
            Failed (if Qle_bool (page_width E) 0 then "float division by zero"
                    else "division by zero") data
          else
            match fpdf_load_image E name data with
            | Raise e => Failed e data
            | Ok _ => Placed data (center_x E (fit_width E W)) (fit_width E W)
            end
      end
  end.

Definition error_block (e : string) : list fpdf_call :=
  [SetTextColor 255 0 0;
   MultiCell 0 5 ("Error displaying image: " +:+ e) false;
   SetTextColor 0 0 0;
   Ln 5].

Definition image_block (o : image_outcome) : list fpdf_call :=
  match o with
  | Placed data x w => [Image data x w; Ln 5]
  | Failed e _ => error_block e
  end.

Definition world_after_image (o : image_outcome) (st : world) : world :=
  let name := tmp_name (tmp_seq st) ".png" in
  {| calls := calls st ++ image_block o;
     text_color := match o with Placed _ _ _ => text_color st | Failed _ _ => black end;
     tmpdir := match o with
               | Placed _ _ _ => delete name (tmpdir st)
               | Failed _ left_behind => <[name := left_behind]> (tmpdir st)
               end;
     tmp_seq := S (tmp_seq st);
     stdout := stdout st |}.

(** ** Section markers of a document *)

(** A section marker is the filled cell that [add_cell_marker] draws; the
    header lines and the format label of a raw cell are not filled. *)
Definition section_marker (c : fpdf_call) : option string :=
  match c with
  | Cell _ _ txt _ _ true => Some txt
  | _ => None
  end.

Definition section_markers (cs : list fpdf_call) : list string :=
  omap section_marker cs.

(** [marks l m]: [m] returns normally and adds the section markers [l], in
    this order, to the document. *)
Definition marks (l : list string) (m : M unit) : Prop :=
  ∀ st, ∃ st', m st = (Ok tt, st')
               ∧ section_markers (calls st') = section_markers (calls st) ++ l.

(** The label of the marker of the cell at (0-based) position [i]. *)
Definition marker_of (ic : nat * cell) : string :=
  cell_marker_label (default "unknown" (cell_type ic.2)) (ic.1 + 1).

(** ** The header *)

Definition header (E : Externals) (student_name assignment_name : string)
    : list fpdf_call :=
  [SetAutoPageBreak true 15;
   AddPage;
   SetFont "Arial" "B" 16;
   Cell 0 10 "Jupyter Notebook Assignment Report" true "C" false;
   SetFont "Arial" "" 12;
   Cell 0 10 ("Student: " +:+ student_name) true "" false;
   Cell 0 10 ("Assignment: " +:+ assignment_name) true "" false;
   Cell 0 10 ("Date: " +:+ now E) true "" false;
   Ln 10].

(** ** The blocks of a document, as the calls that draw them *)

Definition marker_block (cell_type : string) (cell_number : nat)
    : list fpdf_call :=
  [SetFont "Arial" "B" 12;
   SetFillColor 220 220 220;
   Cell 0 10 (cell_marker_label cell_type cell_number) true "" true;
   Ln 5].

Definition code_block (code : string) : list fpdf_call :=
  [SetFont "Courier" "" 10;
   SetFillColor 240 240 240;
   MultiCell 0 5 code true;
   Ln 5].

Definition markdown_block (txt : string) : list fpdf_call :=
  [SetFont "Arial" "B" 12;
   SetFillColor 245 245 250;
   MultiCell 0 5 txt true;
   Ln 5].

Definition output_block (txt : string) : list fpdf_call :=
  [SetFont "Courier" "" 10;
   MultiCell 0 5 txt false;
   Ln 5].

(** An error output: an output block between two changes of text colour. *)
Definition error_output_block (txt : string) : list fpdf_call :=
  SetTextColor 255 0 0 :: output_block txt ++ [SetTextColor 0 0 0].

Definition add_calls (cs : list fpdf_call) (st : world) : world :=
  set_calls (calls st ++ cs) st.

(** The output types that [render_output] knows. *)
Definition recognized_output_type (t : string) : bool :=
  bool_decide (t ∈ ["stream"; "display_data"; "execute_result"; "error"]).

(** ** Concrete notebooks *)

Module Demo.

Import Reference.

(** A PNG image of one pixel, base64-encoded. *)
Definition png_1x1 : string :=
  "iVBORw0KGgoAAAANSUhEUgAAAAEAAAABCAYAAAAfFcSJAAAADUlEQVR42mNkYPhfDwAChwGA60e6kgAAAABJRU5ErkJggg==".

(** The first 30 bytes of an interlaced PNG image of 2 by 2,
    base64-encoded. *)
Definition png_interlaced : string := "iVBORw0KGgoAAAANSUhEUgAAAAIAAAACCAYAAAEA".

Definition code_cell (src : text) (outs : option (list output)) : cell :=
  {| cell_type := Some "code"; source := Some src; outputs := outs;
     metadata := None |}.

Definition result_output (tp : option text) (img : option string) : output :=
  {| output_type := Some "execute_result"; o_name := None; o_text := None;
     o_data := Some {| text_plain := tp; image_png := img |};
     ename := None; evalue := None; traceback := None |}.

Definition other_output (t : string) : output :=
  {| output_type := Some t; o_name := None; o_text := None; o_data := None;
     ename := None; evalue := None; traceback := None |}.

(** Two code cells, not executed yet; the second one fails when run. *)
Definition failing_notebook : notebook :=
  {| cells := Some [code_cell (TStr "print(1)") (Some []);
                    code_cell (TStr "1/0") (Some [])] |}.

(** A code cell whose image payload is valid base64 but no image. *)
Definition bad_image_notebook : notebook :=
  {| cells := Some [code_cell (TStr "show()")
                      (Some [result_output None (Some "AAAA")])] |}.

Definition plot_cell : cell :=
  code_cell (TList ["plot()"; nl; "fail()"])
    (Some [stream_output "stdout" ("1" +:+ nl);
           result_output (Some (TStr "<Figure>")) (Some png_1x1);
           error_output "ValueError" "bad" ["Traceback"; "line 2"]]).

End Demo.

(** ** Text given as fragments *)

(** The fragments one after the other, nothing in between. *)
Definition concat_fragments (l : list string) : string :=
  foldr String.append "" l.

Definition with_source (t : option text) (c : cell) : cell :=
  {| cell_type := cell_type c; source := t; outputs := outputs c;
     metadata := metadata c |}.

Definition with_outputs (outs : option (list output)) (c : cell) : cell :=
  {| cell_type := cell_type c; source := source c; outputs := outs;
     metadata := metadata c |}.

Definition with_stream_text (t : text) (o : output) : output :=
  {| output_type := output_type o; o_name := o_name o; o_text := Some t;
     o_data := o_data o; ename := ename o; evalue := evalue o;
     traceback := traceback o |}.

Definition with_text_plain (t : text) (o : output) : output :=
  {| output_type := output_type o; o_name := o_name o; o_text := o_text o;
     o_data := Some {| text_plain := Some t;
                       image_png := o_data o ≫= image_png |};
     ename := ename o; evalue := evalue o; traceback := traceback o |}.

(** ** Execution and its fallback *)

(** The texts of the multi-line blocks of a document, in order. *)
Definition multi_cell_texts (cs : list fpdf_call) : list string :=
  omap (λ c, match c with MultiCell _ _ txt _ => Some txt | _ => None end) cs.

(** ** What the document depends on *)

(** Two worlds that agree on the document so far and on the name of the
    next temporary file; the content of the temporary directory and the
    lines printed so far are left free. *)
Definition agree (st1 st2 : world) : Prop :=
  calls st1 = calls st2
  ∧ text_color st1 = text_color st2
  ∧ tmp_seq st1 = tmp_seq st2.

(** [m] returns normally and takes agreeing worlds to agreeing worlds. *)
Definition respects (m : M unit) : Prop :=
  ∀ st1 st2, agree st1 st2 →
    ∃ st1' st2', m st1 = (Ok tt, st1') ∧ m st2 = (Ok tt, st2') ∧ agree st1' st2'.

(** ** What rendering leaves alone *)

(** The text colour in force after the calls [cs], starting from [col]. *)
Fixpoint colour_after (col : rgb) (cs : list fpdf_call) : rgb :=
  match cs with
  | [] => col
  | SetTextColor r g b :: rest => colour_after (r, g, b) rest
  | _ :: rest => colour_after col rest
  end.

(** A name that [NamedTemporaryFile] may give to a file of [add_image]. *)
Definition is_temp_name (name : string) : Prop :=
  ∃ k, name = tmp_name k ".png".

(** [steady st st']: from [st] to [st'] the document only grew, the text
    colour followed the calls and is black again if it was black, nothing
    was printed, and no file other than temporary ones changed. *)
Definition steady (st st' : world) : Prop :=
  (∃ cs, calls st' = calls st ++ cs
         ∧ text_color st' = colour_after (text_color st) cs)
  ∧ stdout st' = stdout st
  ∧ (∀ name, ¬ is_temp_name name → tmpdir st' !! name = tmpdir st !! name)
  ∧ (text_color st = black → text_color st' = black).

(** [m] returns normally and relates the worlds before and after by [R]. *)
Definition runs (R : world → world → Prop) (m : M unit) : Prop :=
  ∀ st, ∃ st', m st = (Ok tt, st') ∧ R st st'.

(** The body block of a raw cell, with the label of its format if any. *)
Definition raw_block (txt format_type : string) : list fpdf_call :=
  [SetFont "Arial" "B" 10; SetFillColor 255 245 230]
  ++ (if str_truthy format_type
      then [SetFont "Arial" "I" 10;
            Cell 0 5 ("Format: " +:+ format_type) true "" false;
            SetFont "Courier" "" 10]
      else [])
  ++ [MultiCell 0 5 txt true; Ln 5].

(** ** Images and the names of their temporary files *)


(** The image/png payloads that rendering hands to [add_image]: those of
    the display_data and execute_result outputs of code cells. *)
Definition output_images (o : output) : list string :=
  let t := default "" (output_type o) in
  if (t =? "display_data")%string || (t =? "execute_result")%string
  then option_list (o_data o ≫= image_png)
  else [].

Definition cell_images (c : cell) : list string :=
  if (default "unknown" (cell_type c) =? "code")%string
  then concat (map output_images (default [] (outputs c)))
  else [].

Definition notebook_images (nb : notebook) : list string :=
  concat (map cell_images (default [] (cells nb))).

(** What [add_image] makes of the payload [img] (the image placed, or the
    text of the error) is the same under every temporary file name. *)
Definition name_independent (E : Externals) (img : string) : Prop :=
  ∀ n1 n2, add_image_outcome E img n1 = add_image_outcome E img n2.

(** Two worlds with the same document and text colour. *)
Definition same_doc (st1 st2 : world) : Prop :=
  calls st1 = calls st2 ∧ text_color st1 = text_color st2.

(** [m] returns normally and takes worlds with the same document to worlds
    with the same document. *)
Definition keeps_doc (m : M unit) : Prop :=
  ∀ st1 st2, same_doc st1 st2 →
    ∃ st1' st2', m st1 = (Ok tt, st1') ∧ m st2 = (Ok tt, st2')
                 ∧ same_doc st1' st2'.

Module Samples.

Import Reference.



(** A code cell with two images: one that is placed, one whose payload is
    not base64. *)
Definition two_images_notebook : notebook :=
  {| cells := Some [Demo.code_cell (TStr "show()")
                      (Some [Demo.result_output None (Some Demo.png_1x1);
                             Demo.result_output None (Some "abc")])] |}.

Definition markdown_cell (src : text) (outs : option (list output)) : cell :=
  {| cell_type := Some "markdown"; source := Some src; outputs := outs;
     metadata := None |}.

Definition print_notebook : notebook :=
  {| cells := Some [Demo.code_cell (TStr "print(1)") (Some [])] |}.

Definition print_notebook_executed : notebook :=
  {| cells := Some [Demo.code_cell (TStr "print(1)")
                      (Some [stream_output "stdout" ("1" +:+ nl)])] |}.

End Samples.

(** * Properties *)

(** Unfolds the monad and the primitive operations, leaving the map
    operations on the temporary directory for rewriting. *)
Ltac run_py :=
  cbv [bind ret raise lift try_except exec emit set_font set_fill_color
       set_text_color fpdf_cell multi_cell ln print zero_division no_such_file
       set_calls set_color set_tmpdir set_tmp_seq set_stdout
       calls text_color tmpdir tmp_seq stdout fst snd].

(** Closes a goal that is an equation up to re-association of the call log. *)
Ltac same_calls :=
  cbn [image_block error_block]; unfold black;
  rewrite <- ?app_assoc; cbn [app]; reflexivity.

Lemma add_image_eq (E : Externals) (img_data : string) (st : world) :
  add_image E img_data st
  = (Ok tt, world_after_image (add_image_outcome E img_data (tmp_seq st)) st).
Proof.
  destruct st as [cs tc td n out].
  unfold add_image, add_image_try, add_image_except, add_image_outcome,
    world_after_image, NamedTemporaryFile, file_write, PIL_Image_open,
    fit_height, fpdf_image, os_unlink.
  run_py.
  set (name := tmp_name n ".png").
  destruct (b64decode E img_data) as [data|e]; [|same_calls].
  rewrite insert_insert_eq, lookup_insert_eq.
  destruct (Image_open E name data) as [[W H]|e]; [|same_calls].
  destruct (W =? 0)%Z; [same_calls|].
  rewrite lookup_insert_eq.
  destruct (fpdf_load_image E name data) as [[]|e]; [|same_calls].
  rewrite lookup_insert_eq, delete_insert_eq.
  same_calls.
Qed.

Lemma section_markers_app (a b : list fpdf_call) :
  section_markers (a ++ b) = section_markers a ++ section_markers b.
Proof. apply omap_app. Qed.

Lemma marks_ret : marks [] (ret tt).
Proof. intros st. exists st. split; [reflexivity|]. by rewrite app_nil_r. Qed.

Lemma marks_bind (l1 l2 : list string) (m1 m2 : M unit) :
  marks l1 m1 → marks l2 m2 → marks (l1 ++ l2) (m1 ;;; m2).
Proof.
  intros H1 H2 st.
  destruct (H1 st) as (st1 & Hm1 & Hc1).
  destruct (H2 st1) as (st2 & Hm2 & Hc2).
  exists st2. unfold bind. rewrite Hm1, Hm2. split; [reflexivity|].
  by rewrite Hc2, Hc1, app_assoc.
Qed.

Lemma marks_bind_nil_l (l : list string) (m1 m2 : M unit) :
  marks [] m1 → marks l m2 → marks l (m1 ;;; m2).
Proof. intros H1 H2. exact (marks_bind [] l m1 m2 H1 H2). Qed.

Lemma marks_bind_nil_r (l : list string) (m1 m2 : M unit) :
  marks l m1 → marks [] m2 → marks l (m1 ;;; m2).
Proof.
  intros H1 H2. rewrite <- (app_nil_r l). exact (marks_bind l [] m1 m2 H1 H2).
Qed.

Lemma marks_for_each {A} (f : A → list string) (body : A → M unit)
    (l : list A) :
  (∀ x, marks (f x) (body x)) →
  marks (concat (map f l)) (for_each body l).
Proof.
  intros Hbody. induction l as [|x rest IH]; cbn [for_each map concat].
  - apply marks_ret.
  - apply marks_bind; [apply Hbody | exact IH].
Qed.

Lemma marks_for_each_nil {A} (body : A → M unit) (l : list A) :
  (∀ x, marks [] (body x)) → marks [] (for_each body l).
Proof.
  intros Hbody. induction l as [|x rest IH]; cbn [for_each].
  - apply marks_ret.
  - apply marks_bind_nil_l; [apply Hbody | exact IH].
Qed.

Lemma marks_emit_none (c : fpdf_call) :
  section_marker c = None → marks [] (emit c).
Proof.
  intros Hc st. eexists. split; [reflexivity|].
  destruct st; cbn. rewrite section_markers_app. cbn. by rewrite Hc.
Qed.

Lemma marks_emit_some (c : fpdf_call) (txt : string) :
  section_marker c = Some txt → marks [txt] (emit c).
Proof.
  intros Hc st. eexists. split; [reflexivity|].
  destruct st; cbn. rewrite section_markers_app. cbn. by rewrite Hc.
Qed.

(** A call that draws no section marker. *)
Ltac plain_call :=
  unfold set_font, set_fill_color, fpdf_cell, multi_cell, ln;
  apply marks_emit_none; reflexivity.

Lemma marks_set_text_color (r g b : Z) : marks [] (set_text_color r g b).
Proof.
  intros st. eexists. split; [reflexivity|].
  destruct st; cbn. by rewrite section_markers_app.
Qed.

Lemma marks_add_image (E : Externals) (img_data : string) : marks [] (add_image E img_data).
Proof.
  intros st. eexists. split; [apply add_image_eq|].
  cbn [world_after_image calls]. rewrite section_markers_app.
  by destruct (add_image_outcome E img_data (tmp_seq st)).
Qed.

Lemma marks_add_output (txt : string) : marks [] (add_output txt).
Proof.
  unfold add_output.
  repeat apply marks_bind_nil_l; plain_call.
Qed.

Lemma marks_add_code (txt : string) : marks [] (add_code txt).
Proof.
  unfold add_code.
  repeat apply marks_bind_nil_l; plain_call.
Qed.

Lemma marks_add_markdown (txt : string) : marks [] (add_markdown txt).
Proof.
  unfold add_markdown.
  repeat apply marks_bind_nil_l; plain_call.
Qed.

Lemma marks_add_raw (txt format_type : string) :
  marks [] (add_raw txt format_type).
Proof.
  unfold add_raw.
  repeat apply marks_bind_nil_l; try plain_call.
  destruct (str_truthy format_type); [|apply marks_ret].
  repeat apply marks_bind_nil_l; plain_call.
Qed.

Lemma marks_add_cell_marker (cell_type : string) (cell_number : nat) :
  marks [cell_marker_label cell_type cell_number]
        (add_cell_marker cell_type cell_number).
Proof.
  unfold add_cell_marker.
  do 2 (apply marks_bind_nil_l; [plain_call|]).
  apply marks_bind_nil_r; [|plain_call].
  unfold fpdf_cell. by apply marks_emit_some.
Qed.

Lemma marks_render_output (E : Externals) (o : output) : marks [] (render_output E o).
Proof.
  unfold render_output.
  destruct (_ =? "stream")%string; [apply marks_add_output|].
  destruct (_ || _).
  - apply marks_bind_nil_l.
    + destruct (text_plain _); [apply marks_add_output | apply marks_ret].
    + destruct (image_png _); [apply marks_add_image | apply marks_ret].
  - destruct (_ =? "error")%string; [|apply marks_ret].
    apply marks_bind_nil_l; [apply marks_set_text_color|].
    apply marks_bind_nil_l; [apply marks_add_output|].
    apply marks_set_text_color.
Qed.

Lemma marks_render_cell (E : Externals) (ic : nat * cell) :
  marks [marker_of ic] (render_cell E ic).
Proof.
  destruct ic as [i c]. unfold render_cell, marker_of. cbn [fst snd].
  apply marks_bind_nil_r; [apply marks_add_cell_marker|].
  destruct (_ =? "code")%string.
  - apply marks_bind_nil_l; [apply marks_add_code|].
    apply marks_for_each_nil, (marks_render_output E).
  - destruct (_ =? "markdown")%string; [apply marks_add_markdown|].
    destruct (_ =? "raw")%string; [apply marks_add_raw | apply marks_ret].
Qed.

Lemma concat_map_singleton {A B} (f : A → B) (l : list A) :
  concat (map (λ x, [f x]) l) = map f l.
Proof. induction l as [|x rest IH]; cbn; [reflexivity | by rewrite IH]. Qed.

Lemma marks_render_cells (E : Externals) (ics : list (nat * cell)) :
  marks (map marker_of ics) (for_each (render_cell E) ics).
Proof.
  rewrite <- concat_map_singleton.
  apply (marks_for_each (λ ic, [marker_of ic])), (marks_render_cell E).
Qed.

Lemma length_enumerate_from {A} (i : nat) (l : list A) :
  length (enumerate_from i l) = length l.
Proof. revert i. induction l as [|x rest IH]; intros i; cbn; [|rewrite IH]; reflexivity. Qed.

Lemma map_enumerate_from {A B} (f : nat → A → B) (k : nat) (l : list A) :
  map (λ ia, f ia.1 ia.2) (enumerate_from k l) = imap (λ i, f (k + i)) l.
Proof.
  revert k. induction l as [|x rest IH]; intros k; [reflexivity|].
  cbn. rewrite Nat.add_0_r. f_equal. rewrite IH.
  apply imap_ext. intros i y _. cbn. by rewrite Nat.add_succ_r.
Qed.

Lemma NotebookReportPDF_eq (E : Externals) (s a : string) (st : world) :
  NotebookReportPDF E s a st
  = (Ok tt, set_color black (set_calls (header E s a) st)).
Proof. destruct st. reflexivity. Qed.

Example cell_marker_label_3 : cell_marker_label "markdown" 3 = "Cell 3 (markdown)".
Proof. reflexivity. Qed.

Example cell_marker_label_12 : cell_marker_label "unknown" 12 = "Cell 12 (unknown)".
Proof. reflexivity. Qed.

(** C4. For a notebook with N cells the rendered document has exactly N
    section markers; the i-th (counting from 1) is labelled
    "Cell i (cell_type)", where a cell without cell_type counts as
    "unknown".  Cells of unknown type get their marker like the others. *)
Theorem section_markers_of_notebook (E : Externals) (nb : notebook)
    (student_name assignment_name : string) (st : world) :
  ∃ st',
    render_notebook E nb student_name assignment_name st = (Ok tt, st')
    ∧ length (section_markers (calls st')) = length (default [] (cells nb))
    ∧ section_markers (calls st')
      = imap (λ i c, "Cell " +:+ str_of_nat (i + 1) +:+ " ("
                     +:+ default "unknown" (cell_type c) +:+ ")")
             (default [] (cells nb)).
Proof.
  unfold render_notebook, bind. rewrite NotebookReportPDF_eq.
  set (cs := default [] (cells nb)).
  destruct (marks_render_cells E (enumerate cs)
              (set_color black (set_calls (header E student_name assignment_name) st)))
    as (st' & Hrun & Hmarks).
  exists st'. split; [exact Hrun|].
  assert (Hall : section_markers (calls st') = map marker_of (enumerate cs)).
  { rewrite Hmarks. destruct st; reflexivity. }
  rewrite Hall. split.
  - unfold enumerate. by rewrite length_map, length_enumerate_from.
  - unfold enumerate, marker_of.
    exact (map_enumerate_from
             (λ i c, cell_marker_label (default "unknown" (cell_type c)) (i + 1))
             0 cs).
Qed.

Lemma add_cell_marker_eq (cell_type : string) (n : nat) (st : world) :
  add_cell_marker cell_type n st = (Ok tt, add_calls (marker_block cell_type n) st).
Proof. destruct st. unfold add_cell_marker, add_calls. run_py. same_calls. Qed.

Lemma add_code_eq (code : string) (st : world) :
  add_code code st = (Ok tt, add_calls (code_block code) st).
Proof. destruct st. unfold add_code, add_calls. run_py. same_calls. Qed.

Lemma add_markdown_eq (txt : string) (st : world) :
  add_markdown txt st = (Ok tt, add_calls (markdown_block txt) st).
Proof. destruct st. unfold add_markdown, add_calls. run_py. same_calls. Qed.

Lemma add_output_eq (txt : string) (st : world) :
  add_output txt st = (Ok tt, add_calls (output_block txt) st).
Proof. destruct st. unfold add_output, add_calls. run_py. same_calls. Qed.

Lemma set_text_color_eq (r g b : Z) (st : world) :
  set_text_color r g b st
  = (Ok tt, set_color (r, g, b) (add_calls [SetTextColor r g b] st)).
Proof. destruct st. reflexivity. Qed.

Lemma bind_eq {A B} (m : M A) (k : A → M B) (st st' : world) (a : A) :
  m st = (Ok a, st') → bind m k st = k a st'.
Proof. intros Hm. unfold bind. by rewrite Hm. Qed.

Lemma bind_assoc {A B C} (m : M A) (k : A → M B) (h : B → M C) (st : world) :
  bind (bind m k) h st = bind m (λ a, bind (k a) h) st.
Proof. unfold bind. destruct (m st) as [[a|e] st1]; reflexivity. Qed.

(** Closes an equation between two worlds written with different updates. *)
Ltac same_world :=
  cbv [add_calls set_color set_calls calls text_color tmpdir tmp_seq stdout
       error_output_block output_block marker_block code_block black];
  rewrite <- ?app_assoc; cbn [app]; reflexivity.

(** One step of a sequence whose first statement has a closed form. *)
Ltac step :=
  rewrite ?bind_assoc;
  first
    [ rewrite (bind_eq _ _ _ _ _ (add_cell_marker_eq _ _ _))
    | rewrite (bind_eq _ _ _ _ _ (add_code_eq _ _))
    | rewrite (bind_eq _ _ _ _ _ (add_markdown_eq _ _))
    | rewrite (bind_eq _ _ _ _ _ (add_output_eq _ _))
    | rewrite (bind_eq _ _ _ _ _ (add_image_eq _ _ _))
    | rewrite (bind_eq _ _ _ _ _ (set_text_color_eq _ _ _ _))
    | rewrite add_output_eq
    | rewrite add_image_eq
    | rewrite set_text_color_eq ].

Lemma render_output_unrecognized (E : Externals) (o : output) (st : world) :
  recognized_output_type (default "" (output_type o)) = false →
  render_output E o st = (Ok tt, st).
Proof.
  unfold recognized_output_type, render_output. intros Hun.
  apply bool_decide_eq_false in Hun.
  set (t := default "" (output_type o)) in *.
  destruct (String.eqb_spec t "stream") as [->|_]; [exfalso; apply Hun; set_solver|].
  destruct (String.eqb_spec t "display_data") as [->|_]; [exfalso; apply Hun; set_solver|].
  destruct (String.eqb_spec t "execute_result") as [->|_]; [exfalso; apply Hun; set_solver|].
  destruct (String.eqb_spec t "error") as [->|_]; [exfalso; apply Hun; set_solver|].
  reflexivity.
Qed.

(** C5. A code cell with the outputs [stream, execute_result with
    text/plain and image/png, error] is drawn as: section marker, code
    block, output block of the stream ("name: text"), output block of the
    text/plain payload, image block, error block; the text colour is the
    default one (black) afterwards.  An output whose output_type is not
    recognized draws nothing. *)
Theorem code_cell_blocks_in_order (E : Externals) (i : nat) (c : cell)
    (o1 o2 o3 u : output) (d : mime_bundle) (tp : text) (img : string)
    (st : world) :
  cell_type c = Some "code" →
  outputs c = Some [o1; o2; o3] →
  output_type o1 = Some "stream" →
  output_type o2 = Some "execute_result" →
  o_data o2 = Some d →
  text_plain d = Some tp →
  image_png d = Some img →
  output_type o3 = Some "error" →
  recognized_output_type (default "" (output_type u)) = false →
  (∃ st',
     render_cell E (i, c) st = (Ok tt, st')
     ∧ calls st'
       = calls st
         ++ marker_block "code" (i + 1)
         ++ code_block (py_join "" (default (TList []) (source c)))
         ++ output_block (default "output" (o_name o1) +:+ ": "
                          +:+ py_join "" (default (TList []) (o_text o1)))
         ++ output_block (join_if_list "" tp)
         ++ image_block (add_image_outcome E img (tmp_seq st))
         ++ error_output_block
              (default "Error" (ename o3) +:+ ": " +:+ default "" (evalue o3)
               +:+ nl +:+ str_join nl (default [] (traceback o3)))
     ∧ text_color st' = black)
  ∧ ∀ st0, render_output E u st0 = (Ok tt, st0).
Proof.
  intros Hct Houts H1 H2 Hd Htp Himg H3 Hu.
  split; [|intros st0; by apply render_output_unrecognized].
  unfold render_cell. rewrite Hct, Houts.
  cbn -[add_cell_marker add_code render_output bind].
  unfold render_output. rewrite H1, H2, H3, Hd.
  cbn -[add_cell_marker add_code add_output add_image set_text_color bind
        py_join str_join join_if_list].
  rewrite Htp, Himg.
  repeat step.
  unfold ret. eexists. split; [reflexivity|].
  destruct st; cbn. split; [|reflexivity].
  rewrite <- !app_assoc. reflexivity.
Qed.

Lemma code_cell_blocks_in_order_witness :
  (∃ st',
     render_cell Reference.externals (0, Demo.plot_cell) Reference.empty_world
     = (Ok tt, st')
     ∧ calls st'
       = marker_block "code" 1
         ++ code_block ("plot()" +:+ nl +:+ "fail()")
         ++ output_block ("stdout: 1" +:+ nl)
         ++ output_block "<Figure>"
         ++ image_block (add_image_outcome Reference.externals Demo.png_1x1 0)
         ++ error_output_block ("ValueError: bad" +:+ nl +:+ "Traceback" +:+ nl +:+ "line 2")
     ∧ text_color st' = black)
  ∧ ∀ st0, render_output Reference.externals
             (Demo.other_output "update_display_data") st0 = (Ok tt, st0).
Proof.
  exact (code_cell_blocks_in_order Reference.externals 0 Demo.plot_cell
           (Reference.stream_output "stdout" ("1" +:+ nl))
           (Demo.result_output (Some (TStr "<Figure>")) (Some Demo.png_1x1))
           (Reference.error_output "ValueError" "bad" ["Traceback"; "line 2"])
           (Demo.other_output "update_display_data")
           {| text_plain := Some (TStr "<Figure>"); image_png := Some Demo.png_1x1 |}
           (TStr "<Figure>") Demo.png_1x1 Reference.empty_world
           eq_refl eq_refl eq_refl eq_refl eq_refl eq_refl eq_refl eq_refl eq_refl).
Defined.

(** ** [add_image] *)

Lemma add_image_failed_keeps_file (E : Externals) (img : string) (st : world)
    (e : string) (left_behind : list byte) :
  add_image_outcome E img (tmp_seq st) = Failed e left_behind →
  tmpdir (exec (add_image E img) st) !! tmp_name (tmp_seq st) ".png"
  = Some left_behind.
Proof.
  intros Hout. unfold exec. rewrite add_image_eq, Hout. cbn.
  apply lookup_insert_eq.
Qed.

Lemma add_image_placed_removes_file (E : Externals) (img : string) (st : world)
    (data : list byte) (x w : Q) :
  add_image_outcome E img (tmp_seq st) = Placed data x w →
  tmpdir (exec (add_image E img) st) !! tmp_name (tmp_seq st) ".png" = None.
Proof.
  intros Hout. unfold exec. rewrite add_image_eq, Hout. cbn.
  apply lookup_delete_eq.
Qed.

(** C1. The temporary file of [add_image] is deleted on the success path
    only.  When the payload is not valid base64 the (empty) file stays;
    when the decoded bytes are not an image, or FPDF refuses the image,
    the file stays with the decoded bytes in it. *)
Theorem add_image_leaves_temp_file_on_failure :
  tmpdir (exec (add_image Reference.externals "abc") Reference.empty_world)
    !! "/tmp/tmp0.png" = Some []
  ∧ tmpdir (exec (add_image Reference.externals "AAAA") Reference.empty_world)
    !! "/tmp/tmp0.png" = Some [x00; x00; x00]
  ∧ is_Some (tmpdir (exec (add_image Reference.externals Demo.png_interlaced)
                       Reference.empty_world) !! "/tmp/tmp0.png")
  ∧ tmpdir (exec (add_image Reference.externals Demo.png_1x1) Reference.empty_world)
    !! "/tmp/tmp0.png" = None.
Proof.
  split; [|split; [|split]].
  - exact (add_image_failed_keeps_file Reference.externals "abc"
             Reference.empty_world "Incorrect padding" [] eq_refl).
  - exact (add_image_failed_keeps_file Reference.externals "AAAA"
             Reference.empty_world
             "cannot identify image file '/tmp/tmp0.png'" [x00; x00; x00] eq_refl).
  - eexists.
    apply (add_image_failed_keeps_file Reference.externals Demo.png_interlaced
             Reference.empty_world
             "FPDF error: Interlacing not supported: /tmp/tmp0.png").
    vm_compute. reflexivity.
  - eapply (add_image_placed_removes_file Reference.externals Demo.png_1x1
              Reference.empty_world).
    vm_compute. reflexivity.
Qed.

(** C3. When the image/png payload cannot be decoded (the base64 text is
    invalid, or the decoded bytes are not a readable image), [add_image]
    returns normally: it draws one text block "Error displaying image: ..."
    between a change to red and the change back to black, and whatever
    follows in the rendering runs from the resulting state. *)
Theorem add_image_absorbs_decode_failure (E : Externals) (img : string)
    (st : world) (e : string) :
  (b64decode E img = Raise e
   ∨ ∃ data, b64decode E img = Ok data
             ∧ Image_open E (tmp_name (tmp_seq st) ".png") data = Raise e) →
  ∃ st',
    add_image E img st = (Ok tt, st')
    ∧ calls st'
      = calls st ++ [SetTextColor 255 0 0;
                     MultiCell 0 5 ("Error displaying image: " +:+ e) false;
                     SetTextColor 0 0 0;
                     Ln 5]
    ∧ startswith "Error displaying image:" ("Error displaying image: " +:+ e) = true
    ∧ text_color st' = black
    ∧ ∀ k : M unit, (add_image E img ;;; k) st = k st'.
Proof.
  intros Hfail.
  assert (Hout : ∃ left_behind,
             add_image_outcome E img (tmp_seq st) = Failed e left_behind).
  { unfold add_image_outcome.
    destruct Hfail as [-> | (data & -> & ->)]; eauto. }
  destruct Hout as [left_behind Hout].
  eexists. split; [apply add_image_eq|]. rewrite Hout.
  repeat split.
  intros k. unfold bind. by rewrite add_image_eq, Hout.
Qed.

Lemma add_image_absorbs_decode_failure_witness :
  ∃ st',
    add_image Reference.externals "abc" Reference.empty_world = (Ok tt, st')
    ∧ calls st'
      = [SetTextColor 255 0 0;
         MultiCell 0 5 "Error displaying image: Incorrect padding" false;
         SetTextColor 0 0 0;
         Ln 5]
    ∧ startswith "Error displaying image:"
        "Error displaying image: Incorrect padding" = true
    ∧ text_color st' = black
    ∧ ∀ k : M unit,
        (add_image Reference.externals "abc" ;;; k) Reference.empty_world = k st'.
Proof.
  exact (add_image_absorbs_decode_failure Reference.externals "abc"
           Reference.empty_world "Incorrect padding" (or_introl eq_refl)).
Defined.

Lemma append_empty_r (s : string) : s +:+ "" = s.
Proof.
  induction s as [|c s IH]; [reflexivity|].
  change (String c (s +:+ "") = String c s). by rewrite IH.
Qed.

Lemma str_join_empty (l : list string) : str_join "" l = concat_fragments l.
Proof.
  induction l as [|s rest IH]; [reflexivity|].
  cbn [concat_fragments foldr]. fold (concat_fragments rest). rewrite <- IH.
  destruct rest as [|s' rest']; cbn [str_join].
  - by rewrite append_empty_r.
  - reflexivity.
Qed.

Lemma concat_fragments_str_iter (s : string) : concat_fragments (str_iter s) = s.
Proof.
  induction s as [|c s IH]; [reflexivity|].
  change (String c (concat_fragments (str_iter s)) = String c s). by rewrite IH.
Qed.

(** Joining with the empty separator does not tell a string from the list
    of its pieces. *)
Lemma py_join_fragments (l : list string) :
  py_join "" (TList l) = py_join "" (TStr (concat_fragments l)).
Proof.
  unfold py_join. by rewrite !str_join_empty, concat_fragments_str_iter.
Qed.

Lemma py_join_str (s : string) : py_join "" (TStr s) = s.
Proof. unfold py_join. by rewrite str_join_empty, concat_fragments_str_iter. Qed.

Lemma join_if_list_fragments (l : list string) :
  join_if_list "" (TList l) = join_if_list "" (TStr (concat_fragments l)).
Proof. cbn. apply str_join_empty. Qed.

Example source_a_b_c :
  py_join "" (TList ["a"; "b"; "c"]) = "abc" ∧ py_join "" (TStr "abc") = "abc".
Proof. split; reflexivity. Qed.

(** C6. A text field given as a list of fragments is rendered exactly as
    the single string that is their concatenation, in order and without
    separators: for the source of a cell (code, markdown, raw or any other
    type), for the text of a stream output and for a text/plain payload. *)
Theorem fragments_render_as_their_concatenation (E : Externals)
    (fragments : list string) :
  (∀ i c st,
     render_cell E (i, with_source (Some (TList fragments)) c) st
     = render_cell E (i, with_source (Some (TStr (concat_fragments fragments))) c) st)
  ∧ (∀ o st,
       render_output E (with_stream_text (TList fragments) o) st
       = render_output E (with_stream_text (TStr (concat_fragments fragments)) o) st)
  ∧ (∀ o st,
       render_output E (with_text_plain (TList fragments) o) st
       = render_output E (with_text_plain (TStr (concat_fragments fragments)) o) st).
Proof.
  split; [|split].
  - intros i c st. unfold render_cell, with_source.
    cbn [cell_type source outputs metadata default from_option id].
    by rewrite py_join_fragments.
  - intros o st. unfold render_output, with_stream_text.
    cbn [output_type o_name o_text o_data ename evalue traceback default
         from_option id].
    by rewrite py_join_fragments.
  - intros o st. unfold render_output, with_text_plain.
    cbn [output_type o_name o_text o_data ename evalue traceback default
         from_option id text_plain image_png].
    by rewrite join_if_list_fragments.
Qed.

(** ** Missing fields *)

(** C8. A cell with missing fields is rendered without error.  Without
    cell_type it counts as "unknown" and only its section marker is drawn;
    a missing source is rendered as the empty text; missing outputs are
    rendered as an empty list of outputs. *)
Theorem incomplete_cells_render_with_defaults (E : Externals) (i : nat)
    (c : cell) (st : world) :
  (∃ st', render_cell E (i, c) st = (Ok tt, st'))
  ∧ render_cell E (i, {| cell_type := None; source := source c;
                         outputs := outputs c; metadata := metadata c |}) st
    = (Ok tt, add_calls (marker_block "unknown" (i + 1)) st)
  ∧ render_cell E (i, with_source None c) st
    = render_cell E (i, with_source (Some (TStr "")) c) st
  ∧ render_cell E (i, with_outputs None c) st
    = render_cell E (i, with_outputs (Some []) c) st.
Proof.
  split; [|split; [|split]].
  - destruct (marks_render_cell E (i, c) st) as (st' & Hrun & _). eauto.
  - unfold render_cell.
    cbn -[add_cell_marker bind]. by step.
  - reflexivity.
  - reflexivity.
Qed.

(** C10. An error output with missing fields is rendered with defaults:
    "Error" for ename, the empty string for evalue, no line for traceback.
    With none of the three, the error block reads "Error: " followed by a
    newline. *)
Theorem error_output_defaults (E : Externals) (name : option string)
    (txt : option text) (data : option mime_bundle)
    (en ev : option string) (tb : option (list string)) (st : world) :
  render_output E {| output_type := Some "error"; o_name := name;
                     o_text := txt; o_data := data;
                     ename := en; evalue := ev; traceback := tb |} st
  = (Ok tt,
     set_color black
       (add_calls
          (error_output_block
             (default "Error" en +:+ ": " +:+ default "" ev +:+ nl
              +:+ str_join nl (default [] tb))) st))
  ∧ render_output E {| output_type := Some "error"; o_name := name;
                       o_text := txt; o_data := data;
                       ename := None; evalue := None; traceback := None |} st
    = (Ok tt,
       set_color black
         (add_calls
            [SetTextColor 255 0 0;
             SetFont "Courier" "" 10;
             MultiCell 0 5 (String "E" (String "r" (String "r" (String "o"
                             (String "r" (String ":" (String " "
                             (String "010" EmptyString)))))))) false;
             Ln 5;
             SetTextColor 0 0 0] st)).
Proof.
  split.
  - unfold render_output. cbn -[add_output set_text_color bind str_join nl].
    repeat step. destruct st. same_world.
  - unfold render_output. cbn -[add_output set_text_color bind].
    repeat step. destruct st. same_world.
Qed.

Lemma render_notebook_returns (E : Externals) (nb : notebook) (s a : string)
    (st : world) :
  ∃ st', render_notebook E nb s a st = (Ok tt, st').
Proof.
  unfold render_notebook, bind. rewrite NotebookReportPDF_eq.
  destruct (marks_render_cells E (enumerate (default [] (cells nb)))
              (set_color black (set_calls (header E s a) st)))
    as (st' & Hrun & _).
  eauto.
Qed.

(** [process_notebook] never raises, whatever the executor does. *)
Lemma process_notebook_returns (E : Externals) (nb : notebook) (s a : string)
    (st : world) :
  ∃ st', process_notebook E nb s a st = (Ok tt, st').
Proof.
  unfold process_notebook, execute_notebook, bind, try_except, lift.
  destruct (returned (ep_preprocess E nb)) as [executed_nb|e].
  - destruct (cells executed_nb); cbn; apply render_notebook_returns.
  - cbn. apply render_notebook_returns.
Qed.

(** When the executor raises, the renderer is given the object the
    executor worked on, as the executor left it. *)
Lemma process_notebook_fallback (E : Externals) (nb : notebook) (s a : string)
    (st : world) (e : string) :
  returned (ep_preprocess E nb) = Raise e →
  process_notebook E nb s a st
  = render_notebook E (nb_after (ep_preprocess E nb)) s a
      (set_stdout
         (stdout st ++ ["Error executing notebook: " +:+ e;
                        "Continuing with non-executed notebook for PDF generation"])
         st).
Proof.
  intros Hraise.
  unfold process_notebook, execute_notebook, bind, try_except, lift.
  rewrite Hraise. destruct st. cbn. by rewrite <- app_assoc.
Qed.

(** C2. With an executor that writes the outputs into the notebook it is
    given and raises at the first failing cell, [process_notebook] does not
    raise and reports the failure on stdout, but the document it renders
    is the one of the partially executed notebook: it shows the output of
    the first cell and the error of the second, which the notebook as
    loaded does not have. *)
Theorem process_notebook_renders_partial_execution :
  returned (ep_preprocess Reference.externals Demo.failing_notebook)
  = Raise "ZeroDivisionError: division by zero"
  ∧ fst (process_notebook Reference.externals Demo.failing_notebook "Ada" "HW1"
           Reference.empty_world) = Ok tt
  ∧ stdout (exec (process_notebook Reference.externals Demo.failing_notebook
                    "Ada" "HW1") Reference.empty_world)
    = ["Error executing notebook: ZeroDivisionError: division by zero";
       "Continuing with non-executed notebook for PDF generation"]
  ∧ multi_cell_texts
      (calls (exec (process_notebook Reference.externals Demo.failing_notebook
                      "Ada" "HW1") Reference.empty_world))
    = ["print(1)"; "stdout: 1" +:+ nl; "1/0";
       "ZeroDivisionError: division by zero" +:+ nl]
  ∧ multi_cell_texts
      (calls (exec (render_notebook Reference.externals Demo.failing_notebook
                      "Ada" "HW1") Reference.empty_world))
    = ["print(1)"; "1/0"].
Proof. repeat split; vm_compute; reflexivity. Qed.

Lemma respects_ret : respects (ret tt).
Proof. intros st1 st2 Hag. exists st1, st2. auto. Qed.

Lemma respects_bind (m1 m2 : M unit) :
  respects m1 → respects m2 → respects (m1 ;;; m2).
Proof.
  intros H1 H2 st1 st2 Hag.
  destruct (H1 st1 st2 Hag) as (st1' & st2' & Hr1 & Hr2 & Hag').
  destruct (H2 st1' st2' Hag') as (st1'' & st2'' & Hr1' & Hr2' & Hag'').
  exists st1'', st2''. unfold bind. rewrite Hr1, Hr2. auto.
Qed.

Lemma respects_for_each {A} (body : A → M unit) (l : list A) :
  (∀ x, respects (body x)) → respects (for_each body l).
Proof.
  intros Hbody. induction l as [|x rest IH]; cbn [for_each].
  - apply respects_ret.
  - apply respects_bind; [apply Hbody | exact IH].
Qed.

Lemma respects_emit (c : fpdf_call) : respects (emit c).
Proof.
  intros st1 st2 (Hc & Ht & Hn). do 2 eexists.
  split; [reflexivity|]. split; [reflexivity|].
  destruct st1, st2; cbn in *. by subst.
Qed.

Lemma respects_set_text_color (r g b : Z) : respects (set_text_color r g b).
Proof.
  intros st1 st2 (Hc & Ht & Hn). do 2 eexists.
  split; [reflexivity|]. split; [reflexivity|].
  destruct st1, st2; cbn in *. by subst.
Qed.

Lemma respects_add_image (E : Externals) (img : string) :
  respects (add_image E img).
Proof.
  intros st1 st2 (Hc & Ht & Hn). do 2 eexists.
  split; [apply add_image_eq|]. split; [apply add_image_eq|].
  rewrite Hn. unfold agree, world_after_image. cbn.
  rewrite Hc, Ht, Hn. auto.
Qed.

(** A sequence of plain FPDF calls. *)
Ltac respects_calls :=
  unfold set_font, set_fill_color, fpdf_cell, multi_cell, ln;
  repeat (apply respects_bind; [apply respects_emit|]);
  apply respects_emit.

Lemma respects_add_cell_marker (t : string) (n : nat) :
  respects (add_cell_marker t n).
Proof. unfold add_cell_marker. respects_calls. Qed.

Lemma respects_add_code (code : string) : respects (add_code code).
Proof. unfold add_code. respects_calls. Qed.

Lemma respects_add_markdown (txt : string) : respects (add_markdown txt).
Proof. unfold add_markdown. respects_calls. Qed.

Lemma respects_add_output (txt : string) : respects (add_output txt).
Proof. unfold add_output. respects_calls. Qed.

Lemma respects_add_raw (txt format_type : string) :
  respects (add_raw txt format_type).
Proof.
  unfold add_raw.
  do 2 (apply respects_bind; [apply respects_emit|]).
  apply respects_bind; [|respects_calls].
  destruct (str_truthy format_type); [respects_calls | apply respects_ret].
Qed.

Lemma respects_render_output (E : Externals) (o : output) :
  respects (render_output E o).
Proof.
  unfold render_output.
  destruct (_ =? "stream")%string; [apply respects_add_output|].
  destruct (_ || _).
  - apply respects_bind.
    + destruct (text_plain _); [apply respects_add_output | apply respects_ret].
    + destruct (image_png _); [apply respects_add_image | apply respects_ret].
  - destruct (_ =? "error")%string; [|apply respects_ret].
    apply respects_bind; [apply respects_set_text_color|].
    apply respects_bind; [apply respects_add_output|].
    apply respects_set_text_color.
Qed.

Lemma respects_render_cell (E : Externals) (ic : nat * cell) :
  respects (render_cell E ic).
Proof.
  destruct ic as [i c]. unfold render_cell.
  apply respects_bind; [apply respects_add_cell_marker|].
  destruct (_ =? "code")%string.
  - apply respects_bind; [apply respects_add_code|].
    apply respects_for_each, respects_render_output.
  - destruct (_ =? "markdown")%string; [apply respects_add_markdown|].
    destruct (_ =? "raw")%string; [apply respects_add_raw | apply respects_ret].
Qed.

(** C9, as stated, fails: the document of a notebook with an unreadable
    image quotes the name of the temporary file, so rendering the same
    notebook a second time, with the same names and the same timestamp,
    gives another document. *)
Lemma rendering_twice_differs :
  let render := render_notebook Reference.externals Demo.bad_image_notebook
                  "Ada" "HW1" in
  let first := exec render Reference.empty_world in
  let second := exec render first in
  multi_cell_texts (calls first)
  = ["show()"; "Error displaying image: cannot identify image file '/tmp/tmp0.png'"]
  ∧ multi_cell_texts (calls second)
    = ["show()"; "Error displaying image: cannot identify image file '/tmp/tmp1.png'"]
  ∧ calls first ≠ calls second.
Proof.
  cbv zeta. split; [vm_compute; reflexivity|]. split; [vm_compute; reflexivity|].
  intros Heq. apply (f_equal multi_cell_texts) in Heq.
  vm_compute in Heq. discriminate Heq.
Qed.

(** * Further properties of [add_image] *)

(** X1. [add_image] returns normally whatever its collaborators do, and
    draws exactly one of two things: the image followed by a line break,
    with the text colour untouched, or one error block, after which the
    text colour is black. *)
Theorem add_image_image_or_error_block (E : Externals) (img : string)
    (st : world) :
  ∃ st',
    add_image E img st = (Ok tt, st')
    ∧ ((∃ data x w, calls st' = calls st ++ [Image data x w; Ln 5]
                    ∧ text_color st' = text_color st)
       ∨ (∃ e, calls st'
               = calls st
                 ++ [SetTextColor 255 0 0;
                     MultiCell 0 5 ("Error displaying image: " +:+ e) false;
                     SetTextColor 0 0 0;
                     Ln 5]
               ∧ text_color st' = black)).
Proof.
  eexists. split; [apply add_image_eq|].
  destruct (add_image_outcome E img (tmp_seq st)) as [data x w|e left_behind].
  - left. exists data, x, w. split; reflexivity.
  - right. exists e. split; reflexivity.
Qed.

(** X2. When the payload decodes and is a readable image but FPDF refuses
    to place it, [add_image] still returns normally: the document gets the
    error block with FPDF's message and no image, and the text colour is
    black. *)
Theorem add_image_absorbs_placement_failure (E : Externals) (img : string)
    (st : world) (data : list byte) (W H : Z) (e : string) :
  b64decode E img = Ok data →
  Image_open E (tmp_name (tmp_seq st) ".png") data = Ok (W, H) →
  W ≠ 0%Z →
  fpdf_load_image E (tmp_name (tmp_seq st) ".png") data = Raise e →
  ∃ st',
    add_image E img st = (Ok tt, st')
    ∧ calls st'
      = calls st ++ [SetTextColor 255 0 0;
                     MultiCell 0 5 ("Error displaying image: " +:+ e) false;
                     SetTextColor 0 0 0;
                     Ln 5]
    ∧ text_color st' = black.
Proof.
  intros Hdec Hopen HW Hload.
  apply Z.eqb_neq in HW.
  eexists. split; [apply add_image_eq|].
  unfold add_image_outcome. rewrite Hdec, Hopen, HW, Hload.
  split; reflexivity.
Qed.

Lemma add_image_absorbs_placement_failure_witness :
  ∃ st',
    add_image Reference.externals Demo.png_interlaced Reference.empty_world
    = (Ok tt, st')
    ∧ calls st'
      = [SetTextColor 255 0 0;
         MultiCell 0 5
           "Error displaying image: FPDF error: Interlacing not supported: /tmp/tmp0.png"
           false;
         SetTextColor 0 0 0;
         Ln 5]
    ∧ text_color st' = black.
Proof.
  refine (add_image_absorbs_placement_failure Reference.externals
            Demo.png_interlaced Reference.empty_world
            (default [] (match Reference.b64decode_ref Demo.png_interlaced with
                         | Ok b => Some b | Raise _ => None end))
            2 2 "FPDF error: Interlacing not supported: /tmp/tmp0.png"
            eq_refl eq_refl _ eq_refl).
  discriminate.
Defined.

(** X4. When the image is placed and the name of its temporary file was
    free, the temporary directory is afterwards exactly what it was. *)
Theorem add_image_success_restores_tmpdir (E : Externals) (img : string)
    (st : world) (data : list byte) (W H : Z) :
  b64decode E img = Ok data →
  Image_open E (tmp_name (tmp_seq st) ".png") data = Ok (W, H) →
  W ≠ 0%Z →
  fpdf_load_image E (tmp_name (tmp_seq st) ".png") data = Ok tt →
  tmpdir st !! tmp_name (tmp_seq st) ".png" = None →
  tmpdir (exec (add_image E img) st) = tmpdir st.
Proof.
  intros Hdec Hopen HW Hload Hfree.
  apply Z.eqb_neq in HW.
  unfold exec. rewrite add_image_eq.
  unfold add_image_outcome. rewrite Hdec, Hopen, HW, Hload. cbn.
  by apply delete_id.
Qed.

Lemma add_image_success_restores_tmpdir_witness :
  tmpdir (exec (add_image Reference.externals Demo.png_1x1)
            Reference.empty_world) = ∅.
Proof.
  refine (add_image_success_restores_tmpdir Reference.externals Demo.png_1x1
            Reference.empty_world
            (default [] (match Reference.b64decode_ref Demo.png_1x1 with
                         | Ok b => Some b | Raise _ => None end))
            1 1 eq_refl eq_refl _ eq_refl eq_refl).
  discriminate.
Defined.

(** X5. The placed image lies between the margins and is centred: its
    left edge is not left of the left margin, its right edge not right of
    the usable width, the gaps on both sides are equal, and its width is
    the native width or the usable width. *)
Theorem image_centred_within_margins (E : Externals) (W : Z) :
  let U := page_width E in
  let w := fit_width E W in
  let x := center_x E w in
  (fpdf_l_margin E <= x)%Q
  ∧ (x + w <= fpdf_l_margin E + U)%Q
  ∧ (x - fpdf_l_margin E == fpdf_l_margin E + U - (x + w))%Q
  ∧ (w == inject_Z W ∨ w == U)%Q.
Proof.
  cbv zeta. unfold center_x, fit_width.
  set (U := page_width E). set (l := fpdf_l_margin E).
  assert (Hle : (Qmin U (inject_Z W) <= U)%Q) by apply Q.le_min_l.
  set (w := Qmin U (inject_Z W)) in *.
  assert (Hhalf : ((U - w) / 2 == (U - w) * (1 # 2))%Q) by reflexivity.
  repeat split.
  - rewrite Hhalf. lra.
  - rewrite Hhalf. lra.
  - rewrite Hhalf. lra.
  - unfold w. destruct (Q.min_spec U (inject_Z W)) as [[_ ->]|[_ ->]].
    + right. reflexivity.
    + left. reflexivity.
Qed.

(** * Further properties of cells and outputs *)

Lemma add_raw_eq (txt format_type : string) (st : world) :
  add_raw txt format_type st = (Ok tt, add_calls (raw_block txt format_type) st).
Proof.
  destruct st. unfold add_raw, add_calls, raw_block.
  destruct (str_truthy format_type); run_py; rewrite <- ?app_assoc; reflexivity.
Qed.

(** X6. A raw cell draws its marker and its body; the line "Format: ..."
    comes before the body exactly when the format of its metadata, a
    string or a list joined with ", ", is a non-empty string.  Missing
    metadata or a missing format give no label, and so does an empty list. *)
Theorem raw_cell_format_label (E : Externals) (i : nat) (src : option text)
    (outs : option (list output)) (md : option cell_metadata) (st : world) :
  let body := py_join "" (default (TList []) src) in
  let label := join_if_list ", " (default (TStr "") (md ≫= format)) in
  render_cell E (i, {| cell_type := Some "raw"; source := src;
                       outputs := outs; metadata := md |}) st
  = (Ok tt,
     add_calls
       (marker_block "raw" (i + 1)
        ++ [SetFont "Arial" "B" 10; SetFillColor 255 245 230]
        ++ (if decide (label = "") then []
            else [SetFont "Arial" "I" 10;
                  Cell 0 5 ("Format: " +:+ label) true "" false;
                  SetFont "Courier" "" 10])
        ++ [MultiCell 0 5 body true; Ln 5]) st).
Proof.
  cbv zeta. unfold render_cell.
  cbn -[add_cell_marker add_raw bind py_join join_if_list].
  step.
  assert (Hmd : format (default {| format := None |} md) = md ≫= format)
    by (destruct md; reflexivity).
  rewrite Hmd, add_raw_eq. unfold raw_block.
  set (label := join_if_list ", " (default (TStr "") (md ≫= format))).
  destruct st. unfold add_calls. cbn.
  destruct label; cbn; rewrite <- ?app_assoc; reflexivity.
Qed.

Example raw_cell_label_of_list :
  join_if_list ", " (TList ["text/x-python"; "text/plain"])
  = "text/x-python, text/plain"
  ∧ join_if_list ", " (TList []) = "".
Proof. split; reflexivity. Qed.

(** X7. Outputs are drawn for code cells only: whatever outputs a cell of
    another type carries, it is rendered as if it had none. *)
Theorem outputs_of_other_cells_are_ignored (E : Externals) (i : nat)
    (c : cell) (outs : option (list output)) (st : world) :
  default "unknown" (cell_type c) ≠ "code" →
  render_cell E (i, with_outputs outs c) st
  = render_cell E (i, with_outputs None c) st.
Proof.
  intros Hct. unfold render_cell, with_outputs.
  cbn [cell_type source outputs metadata].
  destruct (String.eqb_spec (default "unknown" (cell_type c)) "code") as [Heq|_];
    [contradiction|reflexivity].
Qed.

Lemma outputs_of_other_cells_are_ignored_witness :
  render_cell Reference.externals
    (0, Samples.markdown_cell (TStr "# Title")
          (Some [Reference.stream_output "stdout" "x"])) Reference.empty_world
  = render_cell Reference.externals
      (0, Samples.markdown_cell (TStr "# Title") None) Reference.empty_world.
Proof.
  refine (outputs_of_other_cells_are_ignored Reference.externals 0
            (Samples.markdown_cell (TStr "# Title") None)
            (Some [Reference.stream_output "stdout" "x"])
            Reference.empty_world _).
  discriminate.
Defined.

(** X8. A cell whose declared type is none of code, markdown and raw draws
    its section marker, labelled with that type, and nothing else; its
    source, outputs and metadata are not looked at. *)
Theorem other_cell_types_draw_only_the_marker (E : Externals) (i : nat)
    (t : string) (src : option text) (outs : option (list output))
    (md : option cell_metadata) (st : world) :
  t ∉ ["code"; "markdown"; "raw"] →
  render_cell E (i, {| cell_type := Some t; source := src; outputs := outs;
                       metadata := md |}) st
  = (Ok tt,
     add_calls [SetFont "Arial" "B" 12;
                SetFillColor 220 220 220;
                Cell 0 10 ("Cell " +:+ str_of_nat (i + 1) +:+ " (" +:+ t +:+ ")")
                     true "" true;
                Ln 5] st).
Proof.
  intros Ht. unfold render_cell.
  cbn [cell_type source outputs metadata default from_option id].
  destruct (String.eqb_spec t "code") as [->|_]; [exfalso; apply Ht; set_solver|].
  destruct (String.eqb_spec t "markdown") as [->|_]; [exfalso; apply Ht; set_solver|].
  destruct (String.eqb_spec t "raw") as [->|_]; [exfalso; apply Ht; set_solver|].
  by step.
Qed.

Lemma other_cell_types_draw_only_the_marker_witness :
  render_cell Reference.externals
    (1, {| cell_type := Some "heading"; source := Some (TStr "Intro");
           outputs := None; metadata := None |}) Reference.empty_world
  = (Ok tt,
     add_calls [SetFont "Arial" "B" 12;
                SetFillColor 220 220 220;
                Cell 0 10 "Cell 2 (heading)" true "" true;
                Ln 5] Reference.empty_world).
Proof.
  refine (other_cell_types_draw_only_the_marker Reference.externals 1 "heading"
            (Some (TStr "Intro")) None None Reference.empty_world _).
  apply (bool_decide_unpack _). vm_compute. exact I.
Defined.

Lemma ret_bind (k : M unit) (st : world) : (ret tt ;;; k) st = k st.
Proof. reflexivity. Qed.

(** X9. A display_data or execute_result output draws its text/plain
    payload as an output block, if it has one, and then its image/png
    payload as an image block, if it has one; each is drawn or not
    independently of the other, and an output without data, or with
    neither payload, draws nothing. *)
Theorem display_output_blocks (E : Externals) (t : string)
    (name : option string) (txt : option text) (data : option mime_bundle)
    (en ev : option string) (tb : option (list string)) (st : world) :
  t = "display_data" ∨ t = "execute_result" →
  ∃ st',
    render_output E {| output_type := Some t; o_name := name; o_text := txt;
                       o_data := data; ename := en; evalue := ev;
                       traceback := tb |} st = (Ok tt, st')
    ∧ calls st'
      = calls st
        ++ from_option (λ tp, output_block (join_if_list "" tp)) []
             (data ≫= text_plain)
        ++ from_option
             (λ img, image_block (add_image_outcome E img (tmp_seq st))) []
             (data ≫= image_png).
Proof.
  intros Ht. unfold render_output.
  cbn [output_type o_name o_text o_data ename evalue traceback default
       from_option id].
  assert (Htest : ((t =? "stream")%string = false)
                  ∧ ((t =? "display_data")%string
                     || (t =? "execute_result")%string = true))
    by (destruct Ht as [-> | ->]; split; reflexivity).
  destruct Htest as [-> ->].
  destruct data as [[[tp|] [img|]]|];
    cbn -[add_output add_image bind ret];
    rewrite ?ret_bind; repeat step; unfold ret; eexists; (split; [reflexivity|]);
    destruct st; cbn; rewrite <- ?app_assoc, ?app_nil_r; reflexivity.
Qed.

Lemma display_output_blocks_witness :
  ∃ st',
    render_output Reference.externals
      (Demo.result_output (Some (TList ["<Fig"; "ure>"])) (Some "abc"))
      Reference.empty_world = (Ok tt, st')
    ∧ calls st'
      = output_block "<Figure>" ++ error_block "Incorrect padding".
Proof.
  exact (display_output_blocks Reference.externals "execute_result" None None
           (Some {| text_plain := Some (TList ["<Fig"; "ure>"]);
                    image_png := Some "abc" |})
           None None None Reference.empty_world (or_intror eq_refl)).
Defined.

(** * What rendering leaves alone *)

Lemma colour_after_app (col : rgb) (a b : list fpdf_call) :
  colour_after col (a ++ b) = colour_after (colour_after col a) b.
Proof.
  revert col. induction a as [|c a IH]; intros col; [reflexivity|].
  destruct c; cbn; apply IH.
Qed.

Lemma steady_refl (st : world) : steady st st.
Proof.
  repeat split; auto. exists []. by rewrite app_nil_r.
Qed.

Lemma steady_trans (st1 st2 st3 : world) :
  steady st1 st2 → steady st2 st3 → steady st1 st3.
Proof.
  intros ((cs1 & Hc1 & Ht1) & Ho1 & Hf1 & Hb1) ((cs2 & Hc2 & Ht2) & Ho2 & Hf2 & Hb2).
  repeat split.
  - exists (cs1 ++ cs2). split.
    + by rewrite Hc2, Hc1, app_assoc.
    + by rewrite Ht2, Ht1, colour_after_app.
  - by rewrite Ho2.
  - intros name Hname. by rewrite Hf2, Hf1.
  - auto.
Qed.

Lemma runs_ret : runs steady (ret tt).
Proof. intros st. exists st. split; [reflexivity | apply steady_refl]. Qed.

Lemma runs_bind (m1 m2 : M unit) :
  runs steady m1 → runs steady m2 → runs steady (m1 ;;; m2).
Proof.
  intros H1 H2 st.
  destruct (H1 st) as (st1 & Hr1 & Hs1).
  destruct (H2 st1) as (st2 & Hr2 & Hs2).
  exists st2. unfold bind. rewrite Hr1, Hr2.
  split; [reflexivity | by eapply steady_trans].
Qed.

Lemma runs_for_each {A} (body : A → M unit) (l : list A) :
  (∀ x, runs steady (body x)) → runs steady (for_each body l).
Proof.
  intros Hbody. induction l as [|x rest IH]; cbn [for_each].
  - apply runs_ret.
  - apply runs_bind; [apply Hbody | exact IH].
Qed.

(** A block of calls that ends in the colour it starts in. *)
Lemma runs_add_calls (m : M unit) (cs : list fpdf_call) :
  (∀ col, colour_after col cs = col) →
  (∀ st, m st = (Ok tt, add_calls cs st)) →
  runs steady m.
Proof.
  intros Hcol Hm st. exists (add_calls cs st). split; [apply Hm|].
  destruct st as [c t d n o]. repeat split; cbn; auto.
  exists cs. by rewrite Hcol.
Qed.

Lemma runs_add_cell_marker (t : string) (n : nat) :
  runs steady (add_cell_marker t n).
Proof.
  apply (runs_add_calls _ (marker_block t n)); [reflexivity|].
  apply add_cell_marker_eq.
Qed.

Lemma runs_add_code (code : string) : runs steady (add_code code).
Proof.
  apply (runs_add_calls _ (code_block code)); [reflexivity | apply add_code_eq].
Qed.

Lemma runs_add_markdown (txt : string) : runs steady (add_markdown txt).
Proof.
  apply (runs_add_calls _ (markdown_block txt)); [reflexivity|].
  apply add_markdown_eq.
Qed.

Lemma runs_add_output (txt : string) : runs steady (add_output txt).
Proof.
  apply (runs_add_calls _ (output_block txt)); [reflexivity | apply add_output_eq].
Qed.

Lemma runs_add_raw (txt format_type : string) :
  runs steady (add_raw txt format_type).
Proof.
  apply (runs_add_calls _ (raw_block txt format_type)); [|apply add_raw_eq].
  intros col. unfold raw_block. by destruct (str_truthy format_type).
Qed.

Lemma tmp_name_is_temp (n : nat) : is_temp_name (tmp_name n ".png").
Proof. by exists n. Qed.

Lemma runs_add_image (E : Externals) (img : string) :
  runs steady (add_image E img).
Proof.
  intros st. eexists. split; [apply add_image_eq|].
  destruct (add_image_outcome E img (tmp_seq st)) as [data x w|e left_behind];
    destruct st as [c t d n o];
    repeat split;
    cbn [calls text_color tmpdir tmp_seq stdout world_after_image image_block];
    auto.
  - by exists [Image data x w; Ln 5].
  - intros name Hname. apply lookup_delete_ne.
    intros <-. apply Hname, tmp_name_is_temp.
  - by exists (error_block e).
  - intros name Hname. apply lookup_insert_ne.
    intros <-. apply Hname, tmp_name_is_temp.
Qed.

Lemma runs_error_output (txt : string) :
  runs steady (set_text_color 255 0 0 ;;; add_output txt ;;; set_text_color 0 0 0).
Proof.
  intros st. eexists. split; [repeat step; reflexivity|].
  destruct st as [c t d n o]. repeat split; cbn; auto.
  exists (error_output_block txt). split; [|reflexivity].
  cbn. rewrite <- !app_assoc. reflexivity.
Qed.

Lemma runs_render_output (E : Externals) (o : output) :
  runs steady (render_output E o).
Proof.
  unfold render_output.
  destruct (_ =? "stream")%string; [apply runs_add_output|].
  destruct (_ || _).
  - apply runs_bind.
    + destruct (text_plain _); [apply runs_add_output | apply runs_ret].
    + destruct (image_png _); [apply runs_add_image | apply runs_ret].
  - destruct (_ =? "error")%string; [apply runs_error_output | apply runs_ret].
Qed.

Lemma runs_render_cell (E : Externals) (ic : nat * cell) :
  runs steady (render_cell E ic).
Proof.
  destruct ic as [i c]. unfold render_cell.
  apply runs_bind; [apply runs_add_cell_marker|].
  destruct (_ =? "code")%string.
  - apply runs_bind; [apply runs_add_code|].
    apply runs_for_each, runs_render_output.
  - destruct (_ =? "markdown")%string; [apply runs_add_markdown|].
    destruct (_ =? "raw")%string; [apply runs_add_raw | apply runs_ret].
Qed.

(** X10. Rendering a cell returns normally and only adds to the document:
    the calls made so far stay as they are, in their place.  The text
    colour afterwards is the one the added calls set last (the one before,
    if they set none).  Nothing is printed, and no file other than the
    temporary files of [add_image] is created, changed or removed. *)
Theorem render_cell_only_appends (E : Externals) (i : nat) (c : cell)
    (st : world) :
  ∃ st' added,
    render_cell E (i, c) st = (Ok tt, st')
    ∧ calls st' = calls st ++ added
    ∧ text_color st' = colour_after (text_color st) added
    ∧ stdout st' = stdout st
    ∧ ∀ name, (∀ k, name ≠ tmp_name k ".png") →
              tmpdir st' !! name = tmpdir st !! name.
Proof.
  destruct (runs_render_cell E (i, c) st)
    as (st' & Hrun & (added & Hc & Ht) & Ho & Hf & _).
  exists st', added. repeat split; auto.
  intros name Hname. apply Hf. intros [k ->]. by apply (Hname k).
Qed.

(** X11. The red of an error never stays: a cell rendered with black text
    leaves the text black, whatever outputs it has, error outputs and
    failing images included. *)
Theorem render_cell_restores_black (E : Externals) (i : nat) (c : cell)
    (st : world) :
  text_color st = black →
  text_color (exec (render_cell E (i, c)) st) = black.
Proof.
  intros Hblack.
  destruct (runs_render_cell E (i, c) st) as (st' & Hrun & _ & _ & _ & Hb).
  unfold exec. rewrite Hrun. by apply Hb.
Qed.

Lemma render_cell_restores_black_witness :
  text_color (exec (render_cell Reference.externals (0, Demo.plot_cell))
                Reference.empty_world) = black.
Proof.
  exact (render_cell_restores_black Reference.externals 0 Demo.plot_cell
           Reference.empty_world eq_refl).
Defined.

(** X12. Every document starts with the header: page setup, title, the
    student, assignment and date lines, and a line break; what the world
    held as a document before is not part of it.  Rendering prints
    nothing, ends with black text, and the colour changes recorded in the
    document end in black as well. *)
Theorem render_notebook_starts_with_header (E : Externals) (nb : notebook)
    (student_name assignment_name : string) (st : world) :
  ∃ st' body,
    render_notebook E nb student_name assignment_name st = (Ok tt, st')
    ∧ calls st'
      = [SetAutoPageBreak true 15;
         AddPage;
         SetFont "Arial" "B" 16;
         Cell 0 10 "Jupyter Notebook Assignment Report" true "C" false;
         SetFont "Arial" "" 12;
         Cell 0 10 ("Student: " +:+ student_name) true "" false;
         Cell 0 10 ("Assignment: " +:+ assignment_name) true "" false;
         Cell 0 10 ("Date: " +:+ now E) true "" false;
         Ln 10] ++ body
    ∧ stdout st' = stdout st
    ∧ text_color st' = black
    ∧ colour_after black (calls st') = black.
Proof.
  unfold render_notebook, bind. rewrite NotebookReportPDF_eq.
  destruct (runs_for_each (render_cell E) (enumerate (default [] (cells nb)))
              (runs_render_cell E)
              (set_color black (set_calls (header E student_name assignment_name) st)))
    as (st' & Hrun & (body & Hc & Ht) & Ho & _ & Hb).
  exists st', body. split; [exact Hrun|].
  assert (Hblack : text_color st' = black) by (apply Hb; by destruct st).
  repeat split.
  - rewrite Hc. by destruct st.
  - rewrite Ho. by destruct st.
  - exact Hblack.
  - rewrite Hc, colour_after_app.
    destruct st. cbn in Ht |- *. by rewrite <- Ht.
Qed.

(** * Notebooks cell by cell, and execution *)

Lemma enumerate_from_app {A} (i : nat) (l1 l2 : list A) :
  enumerate_from i (l1 ++ l2)
  = enumerate_from i l1 ++ enumerate_from (i + length l1) l2.
Proof.
  revert i. induction l1 as [|x l1 IH]; intros i; cbn.
  - by rewrite Nat.add_0_r.
  - rewrite IH. by rewrite Nat.add_succ_r.
Qed.

Lemma for_each_app {A} (body : A → M unit) (l1 l2 : list A) (st : world) :
  for_each body (l1 ++ l2) st = (for_each body l1 ;;; for_each body l2) st.
Proof.
  revert st. induction l1 as [|x l1 IH]; intros st; cbn [app for_each].
  - reflexivity.
  - rewrite bind_assoc.
    change ((body x ;;; for_each body (l1 ++ l2)) st
            = (body x ;;; (for_each body l1 ;;; for_each body l2)) st).
    unfold bind at 1 2.
    destruct (body x st) as [[[]|e] st1]; [apply IH | reflexivity].
Qed.

(** X13. Cells added at the end of a notebook only add to the end of its
    document: the document of the cells [before] is a prefix of the
    document of [before ++ after], rendered from the same world. *)
Theorem render_notebook_prefix (E : Externals) (before after : list cell)
    (student_name assignment_name : string) (st : world) :
  ∃ added,
    calls (exec (render_notebook E {| cells := Some (before ++ after) |}
                   student_name assignment_name) st)
    = calls (exec (render_notebook E {| cells := Some before |}
                     student_name assignment_name) st)
      ++ added.
Proof.
  unfold exec, render_notebook, bind. rewrite !NotebookReportPDF_eq.
  cbn [cells default from_option id]. unfold enumerate.
  rewrite enumerate_from_app, for_each_app.
  set (st0 := set_color black (set_calls (header E student_name assignment_name) st)).
  destruct (runs_for_each (render_cell E) (enumerate_from 0 before)
              (runs_render_cell E) st0) as (st1 & Hrun1 & _).
  destruct (runs_for_each (render_cell E)
              (enumerate_from (0 + length before) after)
              (runs_render_cell E) st1)
    as (st2 & Hrun2 & (added & Hc & _) & _).
  unfold bind. rewrite Hrun1, Hrun2. cbn [snd]. by exists added.
Qed.

Lemma render_notebook_stdout (E : Externals) (nb : notebook) (s a : string)
    (st : world) (out : list string) :
  ∃ st',
    render_notebook E nb s a (set_stdout out st) = (Ok tt, st')
    ∧ stdout st' = out
    ∧ calls st' = calls (exec (render_notebook E nb s a) st)
    ∧ text_color st' = text_color (exec (render_notebook E nb s a) st).
Proof.
  unfold exec, render_notebook, bind. rewrite !NotebookReportPDF_eq.
  set (cs := enumerate (default [] (cells nb))).
  destruct (runs_for_each (render_cell E) cs (runs_render_cell E)
              (set_color black (set_calls (header E s a) (set_stdout out st))))
    as (st1 & Hrun1 & _ & Ho & _).
  destruct (respects_for_each (render_cell E) cs (respects_render_cell E)
              (set_color black (set_calls (header E s a) (set_stdout out st)))
              (set_color black (set_calls (header E s a) st)))
    as (st1' & st2' & Hr1 & Hr2 & Hc & Ht & _).
  { by destruct st. }
  rewrite Hrun1 in Hr1. injection Hr1 as <-.
  exists st1. rewrite Hr2. cbn [snd].
  split; [exact Hrun1|]. split; [|split]; auto.
Qed.

(** X14. When the executor returns a notebook that has cells,
    [process_notebook] prints "Successfully executed notebook with N
    cells", N being their number, and renders the returned notebook. *)
Theorem process_notebook_renders_executed (E : Externals) (nb : notebook)
    (student_name assignment_name : string) (st : world)
    (executed_nb : notebook) (cs : list cell) :
  returned (ep_preprocess E nb) = Ok executed_nb →
  cells executed_nb = Some cs →
  ∃ st',
    process_notebook E nb student_name assignment_name st = (Ok tt, st')
    ∧ stdout st'
      = stdout st ++ ["Successfully executed notebook with "
                      +:+ str_of_nat (length cs) +:+ " cells"]
    ∧ calls st'
      = calls (exec (render_notebook E executed_nb student_name assignment_name) st).
Proof.
  intros Hret Hcells.
  destruct (render_notebook_stdout E executed_nb student_name assignment_name st
              (stdout st ++ ["Successfully executed notebook with "
                             +:+ str_of_nat (length cs) +:+ " cells"]))
    as (st' & Hrun & Ho & Hc & _).
  exists st'. split; [|split; assumption].
  unfold process_notebook, execute_notebook, bind, try_except, lift.
  rewrite Hret, Hcells. destruct st. exact Hrun.
Qed.

Lemma process_notebook_renders_executed_witness :
  ∃ st',
    process_notebook Reference.externals Samples.print_notebook "Ada" "HW1"
      Reference.empty_world = (Ok tt, st')
    ∧ stdout st' = ["Successfully executed notebook with 1 cells"]
    ∧ calls st'
      = calls (exec (render_notebook Reference.externals
                       Samples.print_notebook_executed "Ada" "HW1")
                 Reference.empty_world).
Proof.
  exact (process_notebook_renders_executed Reference.externals
           Samples.print_notebook "Ada" "HW1" Reference.empty_world
           Samples.print_notebook_executed
           [Demo.code_cell (TStr "print(1)")
              (Some [Reference.stream_output "stdout" ("1" +:+ nl)])]
           eq_refl eq_refl).
Defined.

(** X15. When the executor raises, [process_notebook] returns normally all
    the same: it prints the error and the notice that it continues, and
    renders the notebook object it had passed to the executor, in the
    state the executor left it in. *)
Theorem process_notebook_reports_failure (E : Externals) (nb : notebook)
    (student_name assignment_name : string) (st : world) (e : string) :
  returned (ep_preprocess E nb) = Raise e →
  ∃ st',
    process_notebook E nb student_name assignment_name st = (Ok tt, st')
    ∧ stdout st'
      = stdout st
        ++ ["Error executing notebook: " +:+ e;
            "Continuing with non-executed notebook for PDF generation"]
    ∧ calls st'
      = calls (exec (render_notebook E (nb_after (ep_preprocess E nb))
                       student_name assignment_name) st).
Proof.
  intros Hret.
  destruct (render_notebook_stdout E (nb_after (ep_preprocess E nb))
              student_name assignment_name st
              (stdout st
               ++ ["Error executing notebook: " +:+ e;
                   "Continuing with non-executed notebook for PDF generation"]))
    as (st' & Hrun & Ho & Hc & _).
  exists st'. split; [|split; assumption].
  unfold process_notebook, execute_notebook, bind, try_except, lift.
  rewrite Hret. destruct st. cbn. rewrite <- app_assoc. exact Hrun.
Qed.

Lemma process_notebook_reports_failure_witness :
  ∃ st',
    process_notebook Reference.externals Demo.failing_notebook "Ada" "HW1"
      Reference.empty_world = (Ok tt, st')
    ∧ stdout st'
      = ["Error executing notebook: ZeroDivisionError: division by zero";
         "Continuing with non-executed notebook for PDF generation"]
    ∧ calls st'
      = calls (exec (render_notebook Reference.externals
                       (nb_after (ep_preprocess Reference.externals
                                    Demo.failing_notebook)) "Ada" "HW1")
                 Reference.empty_world).
Proof.
  exact (process_notebook_reports_failure Reference.externals
           Demo.failing_notebook "Ada" "HW1" Reference.empty_world
           "ZeroDivisionError: division by zero" eq_refl).
Defined.

(** * The size and place of an image *)




(** * Rendering the same notebook twice *)

Lemma keeps_doc_ret : keeps_doc (ret tt).
Proof. intros st1 st2 Hsame. exists st1, st2. auto. Qed.

Lemma keeps_doc_bind (m1 m2 : M unit) :
  keeps_doc m1 → keeps_doc m2 → keeps_doc (m1 ;;; m2).
Proof.
  intros H1 H2 st1 st2 Hsame.
  destruct (H1 st1 st2 Hsame) as (st1' & st2' & Hr1 & Hr2 & Hsame').
  destruct (H2 st1' st2' Hsame') as (st1'' & st2'' & Hr1' & Hr2' & Hsame'').
  exists st1'', st2''. unfold bind. rewrite Hr1, Hr2. auto.
Qed.

Lemma keeps_doc_for_each {A} (body : A → M unit) (l : list A) :
  Forall (λ x, keeps_doc (body x)) l → keeps_doc (for_each body l).
Proof.
  induction 1 as [|x rest Hx _ IH]; cbn [for_each].
  - apply keeps_doc_ret.
  - apply keeps_doc_bind; assumption.
Qed.

(** A method that adds a fixed block of calls. *)
Lemma keeps_doc_add_calls (m : M unit) (cs : list fpdf_call) :
  (∀ st, m st = (Ok tt, add_calls cs st)) → keeps_doc m.
Proof.
  intros Hm st1 st2 [Hc Ht]. exists (add_calls cs st1), (add_calls cs st2).
  split; [apply Hm|]. split; [apply Hm|].
  destruct st1, st2; cbn in *; subst. split; reflexivity.
Qed.

Lemma keeps_doc_set_text_color (r g b : Z) : keeps_doc (set_text_color r g b).
Proof.
  intros st1 st2 [Hc Ht]. do 2 eexists.
  split; [reflexivity|]. split; [reflexivity|].
  destruct st1, st2; cbn in *; subst. split; reflexivity.
Qed.

Lemma keeps_doc_add_image (E : Externals) (img : string) :
  name_independent E img → keeps_doc (add_image E img).
Proof.
  intros Hind st1 st2 [Hc Ht]. do 2 eexists.
  split; [apply add_image_eq|]. split; [apply add_image_eq|].
  rewrite (Hind (tmp_seq st1) (tmp_seq st2)).
  unfold same_doc, world_after_image. cbn [calls text_color].
  rewrite Hc, Ht. auto.
Qed.

Lemma keeps_doc_render_output (E : Externals) (o : output) :
  Forall (name_independent E) (output_images o) →
  keeps_doc (render_output E o).
Proof.
  unfold output_images, render_output. intros Himgs.
  destruct (_ =? "stream")%string;
    [apply (keeps_doc_add_calls _ _ (add_output_eq _))|].
  destruct (_ || _).
  - apply keeps_doc_bind.
    + destruct (text_plain _);
        [apply (keeps_doc_add_calls _ _ (add_output_eq _)) | apply keeps_doc_ret].
    + destruct (o_data o) as [d|]; cbn in *; [|apply keeps_doc_ret].
      destruct (image_png d) as [img|]; [|apply keeps_doc_ret].
      apply keeps_doc_add_image. by inversion Himgs.
  - destruct (_ =? "error")%string; [|apply keeps_doc_ret].
    apply keeps_doc_bind; [apply keeps_doc_set_text_color|].
    apply keeps_doc_bind; [|apply keeps_doc_set_text_color].
    apply (keeps_doc_add_calls _ _ (add_output_eq _)).
Qed.

Lemma keeps_doc_render_cell (E : Externals) (i : nat) (c : cell) :
  Forall (name_independent E) (cell_images c) →
  keeps_doc (render_cell E (i, c)).
Proof.
  unfold cell_images, render_cell. intros Himgs.
  apply keeps_doc_bind; [apply (keeps_doc_add_calls _ _ (add_cell_marker_eq _ _))|].
  destruct (_ =? "code")%string.
  - apply keeps_doc_bind; [apply (keeps_doc_add_calls _ _ (add_code_eq _))|].
    apply keeps_doc_for_each.
    induction (default [] (outputs c)) as [|o rest IH]; [constructor|].
    cbn [map concat] in Himgs. apply Forall_app in Himgs as [Ho Hrest].
    constructor; [by apply keeps_doc_render_output | by apply IH].
  - destruct (_ =? "markdown")%string;
      [apply (keeps_doc_add_calls _ _ (add_markdown_eq _))|].
    destruct (_ =? "raw")%string;
      [apply (keeps_doc_add_calls _ _ (add_raw_eq _ _)) | apply keeps_doc_ret].
Qed.

Lemma keeps_doc_render_cells (E : Externals) (i : nat) (cs : list cell) :
  Forall (name_independent E) (concat (map cell_images cs)) →
  keeps_doc (for_each (render_cell E) (enumerate_from i cs)).
Proof.
  revert i. induction cs as [|c rest IH]; intros i Himgs;
    cbn [enumerate_from for_each].
  - apply keeps_doc_ret.
  - cbn [map concat] in Himgs. apply Forall_app in Himgs as [Hc Hrest].
    apply keeps_doc_bind; [by apply keeps_doc_render_cell | by apply IH].
Qed.

(** C9, amended.  Rendering a notebook twice, with the same names and the
    timestamp held fixed, gives the same document, whatever state the
    first rendering left behind, for every notebook in which what
    [add_image] makes of each image/png payload does not depend on the
    name of the temporary file: the image is placed, or the error text
    does not quote the file name (as when the payload is not base64).
    Only the text of an error that names the temporary file tells two
    renderings apart. *)
Theorem rendering_twice_same_document (E : Externals) (nb : notebook)
    (student_name assignment_name : string) (st1 st2 : world) :
  Forall (name_independent E) (notebook_images nb) →
  ∃ st1' st2',
    render_notebook E nb student_name assignment_name st1 = (Ok tt, st1')
    ∧ render_notebook E nb student_name assignment_name st2 = (Ok tt, st2')
    ∧ calls st1' = calls st2'
    ∧ text_color st1' = text_color st2'.
Proof.
  intros Himgs. unfold render_notebook, bind. rewrite !NotebookReportPDF_eq.
  destruct (keeps_doc_render_cells E 0 (default [] (cells nb)) Himgs
              (set_color black (set_calls (header E student_name assignment_name) st1))
              (set_color black (set_calls (header E student_name assignment_name) st2)))
    as (st1' & st2' & Hr1 & Hr2 & Hc & Ht).
  { by destruct st1, st2. }
  exists st1', st2'. auto.
Qed.

Lemma rendering_twice_same_document_witness :
  let render := render_notebook Reference.externals Samples.two_images_notebook
                  "Ada" "HW1" in
  let first := exec render Reference.empty_world in
  ∃ st1' st2',
    render Reference.empty_world = (Ok tt, st1')
    ∧ render first = (Ok tt, st2')
    ∧ calls st1' = calls st2'
    ∧ text_color st1' = text_color st2'.
Proof.
  refine (rendering_twice_same_document Reference.externals
            Samples.two_images_notebook "Ada" "HW1" Reference.empty_world
            (exec (render_notebook Reference.externals
                     Samples.two_images_notebook "Ada" "HW1")
               Reference.empty_world) _).
  repeat constructor; intros n1 n2; reflexivity.
Defined.

(** The notebook of [rendering_twice_differs] is outside the amended
    claim: the error text of its image quotes the temporary file. *)
Lemma unreadable_image_depends_on_name :
  ¬ name_independent Reference.externals "AAAA".
Proof.
  intros Hind. specialize (Hind 0 1). vm_compute in Hind. discriminate Hind.
Qed.
